(** * Fuji acquisition engine: a shallow embedding of
      [acquisition/abstract.py] and [acquisition/snapshot.py].

    The Python code is modelled the way it is written: dataclasses become
    records, methods become computations in a small state-and-exception
    monad, [while] loops become fuel-indexed fixpoints with an explicit
    "out of fuel" outcome, and every interaction with the operating system
    (spawned commands, clocks, the file system) is answered by an explicit
    environment. *)

From Stdlib Require Import ZArith List String Ascii Bool Lia Arith.
From Stdlib Require Import Strings.Byte DecimalString SpecFloat.
Import ListNotations.

Local Open Scope string_scope.
Local Open Scope Z_scope.

(* ================================================================== *)
(** ** Python string primitives used by the source                      *)
(* ================================================================== *)

(** Strings are sequences of code points below 256; the classification
    functions follow CPython's [str] methods on that range. *)
Module PyStr.

(** [str.isspace] on one character: TAB..CR, FS..US, SPACE, NEL, NBSP. *)
Definition is_space (c : ascii) : bool :=
  let n := nat_of_ascii c in
  ((9 <=? n)%nat && (n <=? 13)%nat) || ((28 <=? n)%nat && (n <=? 32)%nat)
  || (n =? 133)%nat || (n =? 160)%nat.

(** Line boundaries of [str.splitlines]: LF, VT, FF, CR, FS, GS, RS, NEL. *)
Definition is_linebreak (c : ascii) : bool :=
  let n := nat_of_ascii c in
  ((10 <=? n)%nat && (n <=? 13)%nat) || ((28 <=? n)%nat && (n <=? 30)%nat)
  || (n =? 133)%nat.

Definition LF : ascii := ascii_of_nat 10.
Definition CR : ascii := ascii_of_nat 13.
Definition nl : string := String LF EmptyString.

Fixpoint lstrip (s : string) : string :=
  match s with
  | EmptyString => EmptyString
  | String c s' => if is_space c then lstrip s' else s
  end.

Fixpoint rstrip (s : string) : string :=
  match s with
  | EmptyString => EmptyString
  | String c s' =>
      match rstrip s' with
      | EmptyString => if is_space c then EmptyString else String c EmptyString
      | r => String c r
      end
  end.

(** [s.strip()] *)
Definition strip (s : string) : string := rstrip (lstrip s).

(** [s.splitlines()]: a CR LF pair is one boundary, and a trailing
    boundary opens no further line. *)
Fixpoint splitlines (s : string) : list string :=
  match s with
  | EmptyString => []
  | String c s' =>
      if is_linebreak c then
        match s' with
        | String c2 s'' =>
            if (Ascii.eqb c CR && Ascii.eqb c2 LF)%bool
            then EmptyString :: splitlines s''
            else EmptyString :: splitlines s'
        | EmptyString => [EmptyString]
        end
      else
        match splitlines s' with
        | l :: ls => String c l :: ls
        | [] => [String c EmptyString]
        end
  end.

(** [s.split(sep)] for a one-character separator. *)
Fixpoint split_on (sep : ascii) (s : string) : list string :=
  match s with
  | EmptyString => [EmptyString]
  | String c s' =>
      if Ascii.eqb c sep then EmptyString :: split_on sep s'
      else match split_on sep s' with
           | l :: ls => String c l :: ls
           | [] => [String c EmptyString]
           end
  end.

(** [s.split()]: runs of whitespace separate, no empty fields. *)
Fixpoint split_ws (s : string) : list string :=
  match s with
  | EmptyString => []
  | String c s' =>
      if is_space c then split_ws s'
      else match s' with
           | EmptyString => [String c EmptyString]
           | String c2 _ =>
               if is_space c2 then String c EmptyString :: split_ws s'
               else match split_ws s' with
                    | l :: ls => String c l :: ls
                    | [] => [String c EmptyString]
                    end
           end
  end.

(** [needle in hay] *)
Fixpoint contains (needle hay : string) : bool :=
  String.prefix needle hay
  || match hay with
     | EmptyString => false
     | String _ hay' => contains needle hay'
     end.

(** The text before the first whitespace run of [s] and, when there is
    such a run, the text after it. *)
Fixpoint break_ws (s : string) : string * option string :=
  match s with
  | EmptyString => (EmptyString, None)
  | String c s' =>
      if is_space c then (EmptyString, Some (lstrip s'))
      else let (b, a) := break_ws s' in (String c b, a)
  end.

(** [re.split(r'\s+', s, maxsplit=n)] *)
Fixpoint re_split_ws (maxsplit : nat) (s : string) : list string :=
  match maxsplit with
  | O => [s]
  | S k =>
      match break_ws s with
      | (b, Some a) => b :: re_split_ws k a
      | (_, None) => [s]
      end
  end.

(** [str(n)] for an integer *)
Definition of_Z (z : Z) : string := NilZero.string_of_int (Z.to_int z).

(** ["sep".join(l)] *)
Fixpoint join (sep : string) (l : list string) : string :=
  match l with
  | [] => EmptyString
  | [x] => x
  | x :: rest => x ++ sep ++ join sep rest
  end.

(** [c * n] for a one-character string *)
Fixpoint repeat_char (c : ascii) (n : nat) : string :=
  match n with
  | O => EmptyString
  | S k => String c (repeat_char c k)
  end.

(** Python truthiness of a [str]. *)
Definition truthy (s : string) : bool :=
  match s with EmptyString => false | _ => true end.

End PyStr.


(* ================================================================== *)
(** ** The digests of [hashlib]                                          *)
(* ================================================================== *)

(** [hashlib.md5], [hashlib.sha1] and [hashlib.sha256] as the algorithms
    of RFC 1321 and FIPS 180-4 on 32-bit words, which are kept in [Z] with
    the wrap-around written out.  A hash object is the sequence of the
    arguments of its [update] calls; [hexdigest] hashes their
    concatenation, which is the contract [hashlib] documents for
    repeated [update]s. *)
Module Hashlib.

Local Close Scope string_scope.

Definition w32 (x : Z) : Z := x mod 2 ^ 32.
Definition add32 (a b : Z) : Z := w32 (a + b).
Definition not32 (x : Z) : Z := Z.lxor x 0xFFFFFFFF.
Definition rotl32 (x n : Z) : Z :=
  Z.lor (w32 (Z.shiftl x n)) (Z.shiftr x (32 - n)).
Definition rotr32 (x n : Z) : Z :=
  Z.lor (Z.shiftr x n) (w32 (Z.shiftl x (32 - n))).

Definition byte_val (b : byte) : Z := Z.of_N (Byte.to_N b).

(** *** Padding and word extraction *)

Definition le_bytes (n : nat) (x : Z) : list Z :=
  map (fun i => Z.shiftr x (8 * Z.of_nat i) mod 256) (seq 0 n).
Definition be_bytes (n : nat) (x : Z) : list Z := rev (le_bytes n x).

(** The message followed by 0x80, zeros up to 56 mod 64, and the bit
    length on eight bytes. *)
Definition pad (len_bytes : nat -> Z -> list Z) (msg : list Z) : list Z :=
  let len := Z.of_nat (List.length msg) in
  msg ++ [0x80] ++ repeat 0 (Z.to_nat ((55 - len) mod 64))
      ++ len_bytes 8%nat ((8 * len) mod 2 ^ 64).

Fixpoint le_words (l : list Z) : list Z :=
  match l with
  | a :: b :: c :: d :: rest =>
      (a + Z.shiftl b 8 + Z.shiftl c 16 + Z.shiftl d 24) :: le_words rest
  | _ => []
  end.

Fixpoint be_words (l : list Z) : list Z :=
  match l with
  | a :: b :: c :: d :: rest =>
      (Z.shiftl a 24 + Z.shiftl b 16 + Z.shiftl c 8 + d) :: be_words rest
  | _ => []
  end.

(** Consecutive blocks of [n] elements. *)
Fixpoint blocks_of {A} (fuel n : nat) (l : list A) : list (list A) :=
  match fuel, l with
  | S f, _ :: _ => firstn n l :: blocks_of f n (skipn n l)
  | _, _ => []
  end.

Definition blocks16 (ws : list Z) : list (list Z) :=
  blocks_of (List.length ws) 16 ws.

Definition hex_digit (x : Z) : ascii :=
  match String.get (Z.to_nat (x mod 16)) "0123456789abcdef"%string with
  | Some c => c
  | None => "0"%char
  end.

Fixpoint hex_of_bytes (l : list Z) : string :=
  match l with
  | [] => EmptyString
  | b :: rest =>
      String (hex_digit (b / 16)) (String (hex_digit b) (hex_of_bytes rest))
  end.

(** *** MD5 (RFC 1321) *)

Definition md5_K : list Z :=
  [ 0xd76aa478; 0xe8c7b756; 0x242070db; 0xc1bdceee;
    0xf57c0faf; 0x4787c62a; 0xa8304613; 0xfd469501;
    0x698098d8; 0x8b44f7af; 0xffff5bb1; 0x895cd7be;
    0x6b901122; 0xfd987193; 0xa679438e; 0x49b40821;
    0xf61e2562; 0xc040b340; 0x265e5a51; 0xe9b6c7aa;
    0xd62f105d; 0x02441453; 0xd8a1e681; 0xe7d3fbc8;
    0x21e1cde6; 0xc33707d6; 0xf4d50d87; 0x455a14ed;
    0xa9e3e905; 0xfcefa3f8; 0x676f02d9; 0x8d2a4c8a;
    0xfffa3942; 0x8771f681; 0x6d9d6122; 0xfde5380c;
    0xa4beea44; 0x4bdecfa9; 0xf6bb4b60; 0xbebfbc70;
    0x289b7ec6; 0xeaa127fa; 0xd4ef3085; 0x04881d05;
    0xd9d4d039; 0xe6db99e5; 0x1fa27cf8; 0xc4ac5665;
    0xf4292244; 0x432aff97; 0xab9423a7; 0xfc93a039;
    0x655b59c3; 0x8f0ccc92; 0xffeff47d; 0x85845dd1;
    0x6fa87e4f; 0xfe2ce6e0; 0xa3014314; 0x4e0811a1;
    0xf7537e82; 0xbd3af235; 0x2ad7d2bb; 0xeb86d391 ].

Definition md5_S : list Z :=
  [ 7; 12; 17; 22; 7; 12; 17; 22; 7; 12; 17; 22; 7; 12; 17; 22;
    5; 9; 14; 20; 5; 9; 14; 20; 5; 9; 14; 20; 5; 9; 14; 20;
    4; 11; 16; 23; 4; 11; 16; 23; 4; 11; 16; 23; 4; 11; 16; 23;
    6; 10; 15; 21; 6; 10; 15; 21; 6; 10; 15; 21; 6; 10; 15; 21 ].

Definition st4 : Type := Z * Z * Z * Z.

Definition md5_step (M : list Z) (st : st4) (i : nat) : st4 :=
  let '(a, b, c, d) := st in
  let zi := Z.of_nat i in
  let '(f, g) :=
    if (i <? 16)%nat then (Z.lor (Z.land b c) (Z.land (not32 b) d), zi)
    else if (i <? 32)%nat then
           (Z.lor (Z.land d b) (Z.land (not32 d) c), (5 * zi + 1) mod 16)
    else if (i <? 48)%nat then (Z.lxor (Z.lxor b c) d, (3 * zi + 5) mod 16)
    else (Z.lxor c (Z.lor b (not32 d)), (7 * zi) mod 16) in
  let F := add32 (add32 (add32 f a) (nth i md5_K 0)) (nth (Z.to_nat g) M 0) in
  (d, add32 b (rotl32 F (nth i md5_S 0)), b, c).

Definition md5_block (st : st4) (M : list Z) : st4 :=
  let '(a0, b0, c0, d0) := st in
  let '(a, b, c, d) := fold_left (md5_step M) (seq 0 64) st in
  (add32 a0 a, add32 b0 b, add32 c0 c, add32 d0 d).

Definition md5_words (msg : list Z) : st4 :=
  fold_left md5_block (blocks16 (le_words (pad le_bytes msg)))
    (0x67452301, 0xefcdab89, 0x98badcfe, 0x10325476).

Definition md5_hex (bs : list byte) : string :=
  let '(a, b, c, d) := md5_words (map byte_val bs) in
  hex_of_bytes (le_bytes 4 a ++ le_bytes 4 b ++ le_bytes 4 c ++ le_bytes 4 d).

(** *** SHA-1 (FIPS 180-4, section 6.1) *)

Definition st5 : Type := Z * Z * Z * Z * Z.

(** The message schedule is kept newest word first. *)
Definition sha1_extend (rw : list Z) : list Z :=
  rotl32 (Z.lxor (Z.lxor (nth 2 rw 0) (nth 7 rw 0))
                 (Z.lxor (nth 13 rw 0) (nth 15 rw 0))) 1 :: rw.

Definition sha1_schedule (M : list Z) : list Z :=
  rev (Nat.iter 64 sha1_extend (rev M)).

Definition sha1_step (W : list Z) (st : st5) (t : nat) : st5 :=
  let '(a, b, c, d, e) := st in
  let '(f, k) :=
    if (t <? 20)%nat then
      (Z.lor (Z.land b c) (Z.land (not32 b) d), 0x5a827999)
    else if (t <? 40)%nat then (Z.lxor (Z.lxor b c) d, 0x6ed9eba1)
    else if (t <? 60)%nat then
           (Z.lor (Z.lor (Z.land b c) (Z.land b d)) (Z.land c d), 0x8f1bbcdc)
    else (Z.lxor (Z.lxor b c) d, 0xca62c1d6) in
  let T := add32 (add32 (add32 (add32 (rotl32 a 5) f) e) k) (nth t W 0) in
  (T, a, rotl32 b 30, c, d).

Definition sha1_block (st : st5) (M : list Z) : st5 :=
  let '(h0, h1, h2, h3, h4) := st in
  let '(a, b, c, d, e) :=
    fold_left (sha1_step (sha1_schedule M)) (seq 0 80) st in
  (add32 h0 a, add32 h1 b, add32 h2 c, add32 h3 d, add32 h4 e).

Definition sha1_words (msg : list Z) : st5 :=
  fold_left sha1_block (blocks16 (be_words (pad be_bytes msg)))
    (0x67452301, 0xefcdab89, 0x98badcfe, 0x10325476, 0xc3d2e1f0).

Definition sha1_hex (bs : list byte) : string :=
  let '(a, b, c, d, e) := sha1_words (map byte_val bs) in
  hex_of_bytes (be_bytes 4 a ++ be_bytes 4 b ++ be_bytes 4 c
                ++ be_bytes 4 d ++ be_bytes 4 e).

(** *** SHA-256 (FIPS 180-4, section 6.2) *)

(** The constants are defined as the standard defines them: the first
thirty-two bits of the fractional parts of the cube roots (round
constants) and of the square roots (initial hash value) of the first
primes. *)
Definition is_prime (n : nat) : bool :=
  forallb (fun d => negb (n mod d =? 0)%nat) (seq 2 (n - 2)).

Definition first_primes (count : nat) : list Z :=
  map Z.of_nat (firstn count (filter is_prime (seq 2 310))).

(** The integer cube root by bisection: [lo ^ 3 <= n < hi ^ 3]. *)
Fixpoint cube_root_between (fuel : nat) (n lo hi : Z) : Z :=
  match fuel with
  | O => lo
  | S fuel' =>
      if hi - lo <=? 1 then lo
      else
        let mid := (lo + hi) / 2 in
        if mid * mid * mid <=? n then cube_root_between fuel' n mid hi
        else cube_root_between fuel' n lo mid
  end.

Definition fractional_cube_root (prime : Z) : Z :=
  w32 (cube_root_between 40 (prime * 2 ^ 96) 0 (2 ^ 36)).

Definition fractional_square_root (prime : Z) : Z :=
  w32 (Z.sqrt (prime * 2 ^ 64)).

Definition sha256_K : list Z :=
  Eval vm_compute in map fractional_cube_root (first_primes 64).

Definition sha256_H0 : list Z :=
  Eval vm_compute in map fractional_square_root (first_primes 8).

Definition st8 : Type := Z * Z * Z * Z * Z * Z * Z * Z.

Definition ssig0 (x : Z) : Z :=
  Z.lxor (Z.lxor (rotr32 x 7) (rotr32 x 18)) (Z.shiftr x 3).
Definition ssig1 (x : Z) : Z :=
  Z.lxor (Z.lxor (rotr32 x 17) (rotr32 x 19)) (Z.shiftr x 10).
Definition bsig0 (x : Z) : Z :=
  Z.lxor (Z.lxor (rotr32 x 2) (rotr32 x 13)) (rotr32 x 22).
Definition bsig1 (x : Z) : Z :=
  Z.lxor (Z.lxor (rotr32 x 6) (rotr32 x 11)) (rotr32 x 25).

Definition sha256_extend (rw : list Z) : list Z :=
  add32 (add32 (add32 (ssig1 (nth 1 rw 0)) (nth 6 rw 0))
               (ssig0 (nth 14 rw 0))) (nth 15 rw 0) :: rw.

Definition sha256_schedule (M : list Z) : list Z :=
  rev (Nat.iter 48 sha256_extend (rev M)).

Definition sha256_step (W : list Z) (st : st8) (t : nat) : st8 :=
  let '(a, b, c, d, e, f, g, h) := st in
  let ch := Z.lxor (Z.land e f) (Z.land (not32 e) g) in
  let maj := Z.lxor (Z.lxor (Z.land a b) (Z.land a c)) (Z.land b c) in
  let T1 := add32 (add32 (add32 (add32 h (bsig1 e)) ch) (nth t sha256_K 0))
                  (nth t W 0) in
  let T2 := add32 (bsig0 a) maj in
  (add32 T1 T2, a, b, c, add32 d T1, e, f, g).

Definition sha256_block (st : st8) (M : list Z) : st8 :=
  let '(h0, h1, h2, h3, h4, h5, h6, h7) := st in
  let '(a, b, c, d, e, f, g, h) :=
    fold_left (sha256_step (sha256_schedule M)) (seq 0 64) st in
  (add32 h0 a, add32 h1 b, add32 h2 c, add32 h3 d,
   add32 h4 e, add32 h5 f, add32 h6 g, add32 h7 h).

Definition sha256_words (msg : list Z) : st8 :=
  let h := fun i => nth i sha256_H0 0 in
  fold_left sha256_block (blocks16 (be_words (pad be_bytes msg)))
    (h 0%nat, h 1%nat, h 2%nat, h 3%nat, h 4%nat, h 5%nat, h 6%nat, h 7%nat).

Definition sha256_hex (bs : list byte) : string :=
  let '(a, b, c, d, e, f, g, h) := sha256_words (map byte_val bs) in
  hex_of_bytes (be_bytes 4 a ++ be_bytes 4 b ++ be_bytes 4 c ++ be_bytes 4 d
                ++ be_bytes 4 e ++ be_bytes 4 f ++ be_bytes 4 g ++ be_bytes 4 h).

(** *** Hash objects *)

(** The object returned by [hashlib.md5()] and its siblings: the
    arguments of the [update] calls so far, oldest first. *)
Record hash_obj : Type := mk_hash_obj {
  h_algo : list byte -> string;
  h_fed : list (list byte)
}.

Definition new (algo : list byte -> string) : hash_obj := mk_hash_obj algo [].
Definition md5 : hash_obj := new md5_hex.
Definition sha1 : hash_obj := new sha1_hex.
Definition sha256 : hash_obj := new sha256_hex.

Definition update (h : hash_obj) (chunk : list byte) : hash_obj :=
  mk_hash_obj (h_algo h) (h_fed h ++ [chunk]).

Definition hexdigest (h : hash_obj) : string := h_algo h (List.concat (h_fed h)).

End Hashlib.

(* ================================================================== *)
(** ** Paths                                                            *)
(* ================================================================== *)

(** A [pathlib.Path] is identified with its [str]. *)
Definition Path : Type := string.

Module PathLib.

Definition starts_with (p s : string) : bool := String.prefix p s.

Definition ends_with_slash (s : string) : bool :=
  match PyStr.split_on "/" s with
  | [] => false
  | l => match last l "x" with EmptyString => PyStr.truthy s | _ => false end
  end.

(** [str(Path(s))]: empty and [.] components are dropped, exactly two
    leading slashes are kept, any other number of them is one. *)
Definition of_str (s : string) : Path :=
  let parts :=
    filter (fun x => PyStr.truthy x && negb (String.eqb x ".")) (PyStr.split_on "/" s) in
  let root :=
    if starts_with "//" s && negb (starts_with "///" s) then "//"
    else if starts_with "/" s then "/" else "" in
  match root, parts with
  | EmptyString, [] => "."
  | _, _ => root ++ PyStr.join "/" parts
  end.

(** [a / b] for a path [a] and a string [b]. *)
Definition div (a : Path) (b : string) : Path :=
  if starts_with "/" b then of_str b
  else if ends_with_slash a then of_str (a ++ b)
  else of_str (a ++ "/" ++ b).

(** [p[:p.rfind('/') + 1]] *)
Fixpoint upto_last_slash (s : string) : string :=
  match s with
  | EmptyString => EmptyString
  | String c s' =>
      match upto_last_slash s' with
      | EmptyString => if Ascii.eqb c "/" then String c EmptyString else EmptyString
      | r => String c r
      end
  end.

Fixpoint all_slashes (s : string) : bool :=
  match s with
  | EmptyString => true
  | String c s' => Ascii.eqb c "/" && all_slashes s'
  end.

Fixpoint rstrip_slash (s : string) : string :=
  match s with
  | EmptyString => EmptyString
  | String c s' =>
      match rstrip_slash s' with
      | EmptyString => if Ascii.eqb c "/" then EmptyString else String c EmptyString
      | r => String c r
      end
  end.

(** [os.path.dirname] of [posixpath]. *)
Definition dirname (p : string) : string :=
  let head := upto_last_slash p in
  if PyStr.truthy head && negb (all_slashes head) then rstrip_slash head else head.

End PathLib.

(* ================================================================== *)
(** ** Data model ([abstract.py], lines 13-52)                           *)
(* ================================================================== *)

Record Parameters : Type := mkParameters {
  case : string;
  examiner : string;
  notes : string;
  image_name : string;
  source : Path;
  tmp : Path;
  destination : Path
}.

(** The defaults of the dataclass. *)
Definition default_Parameters : Parameters :=
  mkParameters "" "" "" "FujiAcquisition" "/" "/Volumes/Fuji" "/Volumes/Fuji".

Record PathDetails : Type := mkPathDetails {
  path : Path;
  is_disk : bool;
  disk_sectors : Z;
  disk_device : string;
  disk_identifier : Z;
  disk_info : string
}.

Record HashedFile : Type := mkHashedFile {
  hf_path : Path;
  md5 : string;
  sha1 : string;
  sha256 : string
}.

(** The strategies a [Report] can refer to; only one is in the sources. *)
Inductive AcquisitionMethod : Type :=
| SnapshotMountMethod.

Definition name (m : AcquisitionMethod) : string :=
  match m with SnapshotMountMethod => "Snapshot Mount" end.

(** A [datetime] is the reading of the clock. *)
Definition datetime : Type := Z.

Record Report : Type := mkReport {
  parameters : Parameters;
  method : AcquisitionMethod;
  start_time : option datetime;
  end_time : option datetime;
  path_details : option PathDetails;
  hardware_info : string;
  success : bool;
  output_files : list Path;
  result : option HashedFile
}.

(** [Report(parameters=p, method=m, start_time=t)] with the dataclass
    defaults for the other fields. *)
Definition new_Report (p : Parameters) (m : AcquisitionMethod) (t : datetime) : Report :=
  mkReport p m (Some t) None None "" false [] None.

Definition set_hardware_info (s : string) (r : Report) : Report :=
  mkReport (parameters r) (method r) (start_time r) (end_time r)
    (path_details r) s (success r) (output_files r) (result r).
Definition set_path_details (d : PathDetails) (r : Report) : Report :=
  mkReport (parameters r) (method r) (start_time r) (end_time r)
    (Some d) (hardware_info r) (success r) (output_files r) (result r).
Definition set_success (b : bool) (r : Report) : Report :=
  mkReport (parameters r) (method r) (start_time r) (end_time r)
    (path_details r) (hardware_info r) b (output_files r) (result r).
Definition set_end_time (t : datetime) (r : Report) : Report :=
  mkReport (parameters r) (method r) (start_time r) (Some t)
    (path_details r) (hardware_info r) (success r) (output_files r) (result r).
Definition append_output_file (p : Path) (r : Report) : Report :=
  mkReport (parameters r) (method r) (start_time r) (end_time r)
    (path_details r) (hardware_info r) (success r) (output_files r ++ [p])%list
    (result r).

(* ================================================================== *)
(** ** The environment and the effects of a run                          *)
(* ================================================================== *)

(** What the operating system answers.  A spawned command is identified
    by its rank among the processes spawned so far and by its argument
    vector, so that the same command can exit differently when it is
    retried; it always spawns, and answers an exit status and its output. *)
Record World : Type := mkWorld {
  w_now : nat -> datetime;
  w_proc : nat -> list string -> Z * string;
  w_ismount : string -> bool;
  w_realpath : string -> string;
  w_statvfs : string -> Z * Z;
  w_stat_dev : string -> Z;
  w_stat_size : string -> Z;
  w_file : string -> list byte
}.

(** What a run does to the outside, in order; [EvOs] is a query of the
    file system ([os.path.ismount], [os.statvfs], [os.path.realpath],
    [os.stat]). *)
Inductive Event : Type :=
| EvStdout (text : string)
| EvSpawn (argv : list string)
| EvSleep (seconds : Z)
| EvOs (call : string) (p : string)
| EvMkdir (p : Path)
| EvOpenRead (p : Path)
| EvRead (p : Path) (n : nat)
| EvOpenWrite (p : Path)
| EvWrite (p : Path) (text : string).

Inductive Exn : Type :=
| IndexError
| AttributeError (what : string)
| ZeroDivisionError
| OverflowError
| TypeError
| CalledProcessError (argv : list string) (code : Z).

Inductive Outcome (A : Type) : Type :=
| Returned (a : A)
| Raised (e : Exn)
| OutOfFuel.
Arguments Returned {A} a.
Arguments Raised {A} e.
Arguments OutOfFuel {A}.

(** The mutable part: the clock and process ranks consumed, the events so
    far, the [Report] object under construction and the attributes of
    [self] that the methods assign. *)
Record State : Type := mkState {
  st_clock : nat;
  st_spawned : nat;
  st_events : list Event;
  st_report : option Report;
  self_temporary_volume : option string;
  self_output_report : option Path
}.

Definition initial_State : State := mkState 0 0 [] None None None.

Definition M (A : Type) : Type := State -> Outcome A * State.

Definition ret {A} (a : A) : M A := fun s => (Returned a, s).
Definition raise {A} (e : Exn) : M A := fun s => (Raised e, s).
Definition out_of_fuel {A} : M A := fun s => (OutOfFuel, s).

Definition bind {A B} (m : M A) (k : A -> M B) : M B :=
  fun s =>
    match m s with
    | (Returned a, s') => k a s'
    | (Raised e, s') => (Raised e, s')
    | (OutOfFuel, s') => (OutOfFuel, s')
    end.

Notation "x <- m ;; k" := (bind m (fun x => k))
  (at level 61, m at next level, right associativity).
Notation "' p <- m ;; k" := (bind m (fun x => let 'p := x in k))
  (at level 61, p pattern, m at next level, right associativity).
Notation "m ;;; k" := (bind m (fun _ => k))
  (at level 61, right associativity).

(** [try: m except subprocess.CalledProcessError: h] *)
Definition try_CalledProcessError {A} (m : M A) (h : list string -> Z -> M A) : M A :=
  fun s =>
    match m s with
    | (Raised (CalledProcessError argv code), s') => h argv code s'
    | r => r
    end.

Definition emit (e : Event) : M unit :=
  fun s => (Returned tt,
            mkState (st_clock s) (st_spawned s) (st_events s ++ [e])%list
                    (st_report s) (self_temporary_volume s) (self_output_report s)).

(** [print(a, b, ...)] writes the arguments separated by spaces and a
    line feed. *)
Definition print (words : list string) : M unit :=
  emit (EvStdout (PyStr.join " " words ++ PyStr.nl)).

(** [print(s, end="")] *)
Definition print_noeol (s : string) : M unit := emit (EvStdout s).

Definition index {A} (l : list A) (i : nat) : M A :=
  match nth_error l i with
  | Some x => ret x
  | None => raise IndexError
  end.

Definition get_report : M Report :=
  fun s =>
    match st_report s with
    | Some r => (Returned r, s)
    | None => (Raised (AttributeError "report"), s)
    end.

Definition put_report (r : Report) : M unit :=
  fun s => (Returned tt,
            mkState (st_clock s) (st_spawned s) (st_events s) (Some r)
                    (self_temporary_volume s) (self_output_report s)).

Definition modify_report (f : Report -> Report) : M unit :=
  r <- get_report ;; put_report (f r).

Definition set_self_output_report (p : Path) : M unit :=
  fun s => (Returned tt,
            mkState (st_clock s) (st_spawned s) (st_events s) (st_report s)
                    (self_temporary_volume s) (Some p)).

Definition get_self_temporary_volume : M (option string) :=
  fun s => (Returned (self_temporary_volume s), s).

(** Python values that a name can hold when it is first a [bool] and
    later an [int]. *)
Inductive PyVal : Type :=
| PyBool (b : bool)
| PyInt (z : Z).

Definition py_truthy (v : PyVal) : bool :=
  match v with
  | PyBool b => b
  | PyInt z => negb (z =? 0)
  end.

(** Truthiness of an optional string: [None] and [""] are false. *)
Definition opt_truthy (o : option string) : bool :=
  match o with
  | Some s => PyStr.truthy s
  | None => false
  end.

(** *** Float arithmetic of [int(a / 512)] *)

(** [a / 2**k] on Python ints is the quotient rounded once to the nearest
    binary64, ties to even; a quotient beyond the largest float raises. *)
Definition truediv_pow2 (a k : Z) : option spec_float :=
  match binary_normalize 53 1024 a (- k) false with
  | S754_infinity _ => None
  | S754_nan => None
  | f => Some f
  end.

(** [int(x)] of a finite float: truncation towards zero. *)
Definition int_of_float (x : spec_float) : option Z :=
  match x with
  | S754_zero _ => Some 0
  | S754_finite sgn m e =>
      let v := if 0 <=? e then Zpos m * 2 ^ e else Zpos m / 2 ^ (- e) in
      Some (if sgn then - v else v)
  | _ => None
  end.

(** [int(a / 512)] *)
Definition int_truediv_512 (a : Z) : option Z :=
  match truediv_pow2 a 9 with
  | Some q => int_of_float q
  | None => None
  end.

Definition or_OverflowError {A} (o : option A) : M A :=
  match o with
  | Some a => ret a
  | None => raise OverflowError
  end.

(** [a // b] *)
Definition floordiv (a b : Z) : M Z :=
  if b =? 0 then raise ZeroDivisionError else ret (a / b).

(** [o.attr] where [o] may be [None]. *)
Definition attr {A} (what : string) (o : option A) : M A :=
  match o with
  | Some a => ret a
  | None => raise (AttributeError what)
  end.

Definition str_of_opt_datetime (o : option datetime) : string :=
  match o with
  | Some t => PyStr.of_Z t
  | None => "None"
  end.

Definition dq : string := String (ascii_of_nat 34) EmptyString.

(** [str(e)] of a [CalledProcessError]; the arguments are quoted without
    escapes. *)
Definition str_of_CalledProcessError (argv : list string) (code : Z) : string :=
  "Command '[" ++ PyStr.join ", " (map (fun a => "'" ++ a ++ "'") argv)
  ++ "]' returned non-zero exit status " ++ PyStr.of_Z code ++ ".".

Definition chunk_size : nat := 16 * 1024.

(* ================================================================== *)
(** ** [AcquisitionMethod] ([abstract.py])                               *)
(* ================================================================== *)

Section Methods.

Variable w : World.

(** [datetime.now()] *)
Definition now : M datetime :=
  fun s => (Returned (w_now w (st_clock s)),
            mkState (S (st_clock s)) (st_spawned s) (st_events s)
                    (st_report s) (self_temporary_volume s)
                    (self_output_report s)).

(** Running a child process to completion. *)
Definition spawn (argv : list string) : M (Z * string) :=
  fun s => (Returned (w_proc w (st_spawned s) argv),
            mkState (st_clock s) (S (st_spawned s))
                    (st_events s ++ [EvSpawn argv])%list
                    (st_report s) (self_temporary_volume s)
                    (self_output_report s)).

(** The file-system queries; the paths they are given exist. *)
Definition ismount (p : string) : M bool :=
  emit (EvOs "ismount" p) ;;; ret (w_ismount w p).
Definition realpath (p : string) : M string :=
  emit (EvOs "realpath" p) ;;; ret (w_realpath w p).
Definition statvfs (p : string) : M (Z * Z) :=
  emit (EvOs "statvfs" p) ;;; ret (w_statvfs w p).
Definition stat_st_dev (p : string) : M Z :=
  emit (EvOs "stat" p) ;;; ret (w_stat_dev w p).
Definition stat_st_size (p : string) : M Z :=
  emit (EvOs "stat" p) ;;; ret (w_stat_size w p).

(** [time.sleep] *)
Definition sleep (seconds : Z) : M unit := emit (EvSleep seconds).

Definition caffeinate (awake : bool) (arguments : list string) : list string :=
  if awake then ("caffeinate" :: "-dimsu" :: arguments) else arguments.

(** [_run_silent], lines 63-68 *)
Definition _run_silent (arguments : list string) (awake : bool) : M (Z * string) :=
  spawn (caffeinate awake arguments).

(** [_run_process], lines 70-93: the output is echoed to the console
    while it is accumulated; the echo is one event here. *)
Definition _run_process (arguments : list string) (awake : bool) : M (Z * string) :=
  '(returncode, output) <- spawn (caffeinate awake arguments) ;;
  emit (EvStdout output) ;;;
  ret (returncode, output).

(** [subprocess.run(argv, capture_output=True, text=True, check=True)]
    and [subprocess.check_output(argv, universal_newlines=True)]:
    the captured output, or [CalledProcessError] on a nonzero exit. *)
Definition run_checked (argv : list string) : M string :=
  '(returncode, output) <- spawn argv ;;
  if returncode =? 0 then ret output
  else raise (CalledProcessError argv returncode).

(** [_find_mount_point], lines 95-99 *)
Fixpoint find_mount_loop (fuel : nat) (p : string) : M string :=
  match fuel with
  | O => out_of_fuel
  | S fuel' =>
      mounted <- ismount p ;;
      if negb mounted then find_mount_loop fuel' (PathLib.dirname p)
      else ret p
  end.

Definition _find_mount_point (fuel : nat) (p : Path) : M Path :=
  resolved <- realpath p ;;
  find_mount_loop fuel resolved.

(** [_gather_path_info], lines 101-130 *)
Fixpoint _gather_path_info (fuel : nat) (p : Path) : M PathDetails :=
  match fuel with
  | O => out_of_fuel
  | S fuel' =>
      is_disk <- ismount p ;;
      '(f_blocks, f_frsize) <- statvfs p ;;
      sectors <- or_OverflowError (int_truediv_512 (f_blocks * f_frsize)) ;;
      '(is_disk, disk_device, disk_info) <-
        (if is_disk then
           '(result, disk_info) <- _run_silent ["diskutil"; "info"; p] true ;;
           let lines := PyStr.splitlines disk_info in
           if result =? 0 then
             line <- index lines 1 ;;
             field <- index (PyStr.split_on ":" line) 1 ;;
             ret (is_disk, PyStr.strip field, disk_info)
           else ret (false, "", disk_info)
         else
           mount_point <- _find_mount_point fuel' p ;;
           mount_info <- _gather_path_info fuel' mount_point ;;
           ret (is_disk, disk_device mount_info, disk_info mount_info)) ;;
      disk_identifier <- stat_st_dev p ;;
      ret (mkPathDetails p is_disk sectors disk_device disk_identifier disk_info)
  end.

(** [_gather_hardware_info], lines 132-134 *)
Definition _gather_hardware_info : M string :=
  '(_, hardware_info) <- _run_silent ["system_profiler"; "SPHardwareDataType"] true ;;
  ret hardware_info.

(** [_detach_temporary_image], lines 169-182.  [result] starts as
    [False] and then holds the exit status of the last attempt; the
    loop condition is its truth value. *)
Fixpoint detach_loop (fuel : nat) (interval attempts : Z)
         (result : PyVal) (i : Z) : M bool :=
  match fuel with
  | O => out_of_fuel
  | S fuel' =>
      if negb (py_truthy result) then
        volume <- get_self_temporary_volume ;;
        v <- match volume with
             | Some v => ret v
             | None => raise TypeError
             end ;;
        '(result, _) <- _run_process ["hdiutil"; "detach"; v] true ;;
        if result =? 0 then ret true
        else
          let i := i + 1 in
          if i =? attempts then ret false
          else
            sleep interval ;;;
            detach_loop fuel' interval attempts (PyInt result) i
      else ret false
  end.

Definition _detach_temporary_image (fuel : nat) (delay interval attempts : Z) : M bool :=
  sleep delay ;;;
  detach_loop fuel interval attempts (PyBool false) 1.

(** [_compute_hashes], lines 203-236 *)
Fixpoint hash_loop (fuel : nat) (p : Path) (total_size : Z) (f : list byte)
         (amount last_percent : Z)
         (sha1 sha256 md5 : Hashlib.hash_obj)
  : M (Hashlib.hash_obj * Hashlib.hash_obj * Hashlib.hash_obj) :=
  match fuel with
  | O => out_of_fuel
  | S fuel' =>
      let chunk := firstn chunk_size f in
      emit (EvRead p (List.length chunk)) ;;;
      match chunk with
      | [] => print [""] ;;; ret (sha1, sha256, md5)
      | _ :: _ =>
          let sha1 := Hashlib.update sha1 chunk in
          let sha256 := Hashlib.update sha256 chunk in
          let md5 := Hashlib.update md5 chunk in
          let amount := amount + Z.of_nat chunk_size in
          percent <- floordiv (100 * amount) total_size ;;
          if last_percent <? percent then
            print_noeol (PyStr.of_Z percent ++ "% ") ;;;
            (if percent mod 20 =? 0 then print [""] else ret tt) ;;;
            hash_loop fuel' p total_size (skipn chunk_size f)
                      amount percent sha1 sha256 md5
          else
            hash_loop fuel' p total_size (skipn chunk_size f)
                      amount last_percent sha1 sha256 md5
      end
  end.

Definition _compute_hashes (fuel : nat) (p : Path) : M HashedFile :=
  print [PyStr.nl ++ "Hashing"; p] ;;;
  total_size <- stat_st_size p ;;
  emit (EvOpenRead p) ;;;
  '(sha1, sha256, md5) <-
    hash_loop fuel p total_size (w_file w p) 0 0
              Hashlib.sha1 Hashlib.sha256 Hashlib.md5 ;;
  ret (mkHashedFile p (Hashlib.hexdigest md5) (Hashlib.hexdigest sha1)
                    (Hashlib.hexdigest sha256)).

Fixpoint write_lines (p : Path) (lines : list string) : M unit :=
  match lines with
  | [] => ret tt
  | line :: rest => emit (EvWrite p (line ++ PyStr.nl)) ;;; write_lines p rest
  end.

(** [_write_report], lines 238-279.  The file is opened (created or
    truncated) before the list of lines is built, and building the list
    reads [report.path_details.disk_info] and [report.result.path]. *)
Definition _write_report : M unit :=
  report <- get_report ;;
  let params := parameters report in
  let output_directory := PathLib.div (destination params) (image_name params) in
  emit (EvMkdir output_directory) ;;;
  let output_report := PathLib.div output_directory (image_name params ++ ".txt") in
  set_self_output_report output_report ;;;
  print [PyStr.nl ++ "Writing report file"; output_report] ;;;
  let separator := PyStr.repeat_char "-" 80 in
  emit (EvOpenWrite output_report) ;;;
  report <- get_report ;;
  details <- attr "disk_info" (path_details report) ;;
  res <- attr "path" (result report) ;;
  write_lines output_report
    (List.app
       [ "Fuji - Forensic Unattended Juicy Imaging";
         "Acquisition log";
         separator;
         "Case name: " ++ case (parameters report);
         "Examiner: " ++ examiner (parameters report);
         "Notes: " ++ notes (parameters report);
         separator;
         "Start time: " ++ str_of_opt_datetime (start_time report);
         "End time: " ++ str_of_opt_datetime (end_time report);
         "Source: " ++ source (parameters report);
         "Acquisition method: " ++ name (method report);
         separator;
         hardware_info report;
         separator;
         disk_info details;
         separator;
         "Generated files:" ]
       (List.app
          (map (fun file => "    - " ++ file) (output_files report))
          [ separator;
            "Computed hashes (" ++ hf_path res ++ "):";
            "    - MD5: " ++ md5 res;
            "    - SHA1: " ++ sha1 res;
            "    - SHA256: " ++ sha256 res ])) ;;;
  print [PyStr.nl ++ "Acquisition completed!"].

End Methods.

(* ================================================================== *)
(** ** [SnapshotMountMethod] ([snapshot.py])                             *)
(* ================================================================== *)

Definition str_of (o : option string) : string :=
  match o with
  | Some s => s
  | None => EmptyString
  end.

(** The AppleScript sources, as the triple-quoted literals spell them. *)
Definition image_script : string :=
  PyStr.nl
  ++ "        tell application " ++ dq ++ "System Events" ++ dq ++ PyStr.nl
  ++ "            activate" ++ PyStr.nl
  ++ "            set theFile to choose file with prompt " ++ dq
  ++ "Select a snapshot image to mount:" ++ dq ++ " of type {" ++ dq ++ "dmg" ++ dq
  ++ ", " ++ dq ++ "sparseimage" ++ dq ++ ", " ++ dq ++ "sparsebundle" ++ dq ++ "}"
  ++ PyStr.nl
  ++ "            return POSIX path of theFile" ++ PyStr.nl
  ++ "        end tell" ++ PyStr.nl
  ++ "        ".

Definition destination_script : string :=
  PyStr.nl
  ++ "        tell application " ++ dq ++ "System Events" ++ dq ++ PyStr.nl
  ++ "            activate" ++ PyStr.nl
  ++ "            set theFolder to choose folder with prompt " ++ dq
  ++ "Select a destination folder for the copied files:" ++ dq ++ PyStr.nl
  ++ "            return POSIX path of theFolder" ++ PyStr.nl
  ++ "        end tell" ++ PyStr.nl
  ++ "        ".

Section Snapshot.

Variable w : World.

(** Modelled from the spec: [_run_status] is called by [snapshot.py] and
    defined in neither source file.  It is the streamed runner of
    section 4.1, [runStreamed(args, keepAwake, optionalTeeFile)]: the
    output is echoed while it is accumulated and is duplicated into the
    tee file at completion.  Keep-awake wrapping is on, the default of
    [_run_silent] and [_run_process], and the value is the exit code
    alone, which is what both callers compare with 0. *)
Definition _run_status (arguments : list string) (tee : option Path) : M Z :=
  '(returncode, output) <- _run_process w arguments true ;;
  match tee with
  | Some log => emit (EvOpenWrite log) ;;; emit (EvWrite log output)
  | None => ret tt
  end ;;;
  ret returncode.

(** [_prompt_for_image], lines 66-86 *)
Definition _prompt_for_image : M (option string) :=
  try_CalledProcessError
    (out <- run_checked w ["osascript"; "-e"; image_script] ;;
     ret (Some (PyStr.strip out)))
    (fun argv code =>
       print ["Error selecting image file: " ++ str_of_CalledProcessError argv code] ;;;
       ret None).

(** [_prompt_for_destination], lines 88-108 *)
Definition _prompt_for_destination : M (option string) :=
  try_CalledProcessError
    (out <- run_checked w ["osascript"; "-e"; destination_script] ;;
     ret (Some (PyStr.strip out)))
    (fun argv code =>
       print ["Error selecting destination: " ++ str_of_CalledProcessError argv code] ;;;
       ret None).

(** [_mount_snapshot_image], lines 110-135 *)
Definition _mount_snapshot_image (image_path : string) : M (option string) :=
  print ["Mounting image: " ++ image_path] ;;;
  '(result, output) <- _run_process w ["hdiutil"; "attach"; image_path] true ;;
  if negb (result =? 0) then
    print ["Failed to mount image with error code " ++ PyStr.of_Z result] ;;;
    ret None
  else
    let output_lines := PyStr.splitlines (PyStr.strip output) in
    let volume_lines := filter (PyStr.contains "/Volumes") output_lines in
    match volume_lines with
    | [] => print ["No mounted volume found in the output"] ;;; ret None
    | mount_line :: _ =>
        let parts := PyStr.re_split_ws 2 mount_line in
        if (List.length parts <? 3)%nat then
          print ["Failed to parse mount point from: " ++ mount_line] ;;;
          ret None
        else
          mount_point <- index parts 2 ;;
          print ["Image mounted at: " ++ mount_point] ;;;
          ret (Some mount_point)
    end.

(** [_get_disk_device_from_mount], lines 148-166 *)
Definition _get_disk_device_from_mount (mount_point : string) : M (option string) :=
  try_CalledProcessError
    (df_output <- run_checked w ["df"; mount_point] ;;
     let lines := PyStr.splitlines (PyStr.strip df_output) in
     if (List.length lines <? 2)%nat then ret None
     else
       header_line <- index lines 0 ;;
       data_line <- index lines 1 ;;
       device <- index (PyStr.split_ws data_line) 0 ;;
       ret (Some device))
    (fun _ _ => ret None).

(** [_detach_mounted_image], lines 137-146 *)
Definition _detach_mounted_image (mount_point : string) : M bool :=
  print ["Detaching image mounted at: " ++ mount_point] ;;;
  disk_device <- _get_disk_device_from_mount mount_point ;;
  if negb (opt_truthy disk_device) then
    print ["Could not determine disk device for mount point: " ++ mount_point] ;;;
    ret false
  else
    result <- _run_status ["hdiutil"; "detach"; str_of disk_device] None ;;
    ret (result =? 0).

(** [_copy_with_ditto], lines 168-190 *)
Definition _copy_with_ditto (source destination : string) : M bool :=
  print ["Copying files from " ++ source ++ " to " ++ destination
         ++ " using ditto with clone flag..."] ;;;
  let output_directory := PathLib.of_str destination in
  let log_file := PathLib.div output_directory "ditto_copy.log" in
  result <- _run_status ["ditto"; "-c"; "--keepParent"; source; destination]
                        (Some log_file) ;;
  if result =? 0 then
    print ["Successfully copied files to " ++ destination] ;;;
    print ["Log file created at " ++ log_file] ;;;
    ret true
  else
    print ["Failed to copy files with error code " ++ PyStr.of_Z result] ;;;
    ret false.

(** [execute], lines 15-64 *)
Definition execute (fuel : nat) (params : Parameters) : M Report :=
  start <- now w ;;
  put_report (new_Report params SnapshotMountMethod start) ;;;
  hardware <- _gather_hardware_info w ;;
  modify_report (set_hardware_info hardware) ;;;
  details <- _gather_path_info w fuel (source params) ;;
  modify_report (set_path_details details) ;;;
  print ["Preparing to mount a snapshot image..." ++ PyStr.nl] ;;;
  snapshot_image <- _prompt_for_image ;;
  if negb (opt_truthy snapshot_image) then
    print ["No snapshot image was selected. Aborting."] ;;;
    get_report
  else
    mounted_path <- _mount_snapshot_image (str_of snapshot_image) ;;
    if negb (opt_truthy mounted_path) then
      print ["Failed to mount the snapshot image. Aborting."] ;;;
      get_report
    else
      print ["Please select a destination for the copied files..."] ;;;
      destination_path <- _prompt_for_destination ;;
      if negb (opt_truthy destination_path) then
        print ["No destination was selected. Detaching mounted image and aborting."] ;;;
        _ <- _detach_mounted_image (str_of mounted_path) ;;
        get_report
      else
        success <- _copy_with_ditto (str_of mounted_path) (str_of destination_path) ;;
        detached <- _detach_mounted_image (str_of mounted_path) ;;
        (if negb detached then
           print ["Warning: Failed to detach the mounted image. You may need to detach it manually."]
         else ret tt) ;;;
        modify_report (set_success success) ;;;
        finish <- now w ;;
        modify_report (set_end_time finish) ;;;
        (if success then
           let output_path := PathLib.of_str (str_of destination_path) in
           modify_report (append_output_file output_path) ;;;
           _write_report
         else ret tt) ;;;
        get_report.

End Snapshot.

(* ================================================================== *)
(** ** Observations on a run                                             *)
(* ================================================================== *)

Fixpoint argv_eqb (a b : list string) : bool :=
  match a, b with
  | [], [] => true
  | x :: a', y :: b' => String.eqb x y && argv_eqb a' b'
  | _, _ => false
  end.

Definition mentions (word : string) (argv : list string) : bool :=
  existsb (String.eqb word) argv.

(** The argument vectors of the processes spawned, in order. *)
Fixpoint spawns_of (evs : list Event) : list (list string) :=
  match evs with
  | [] => []
  | EvSpawn argv :: rest => argv :: spawns_of rest
  | _ :: rest => spawns_of rest
  end.

(** The text written to the console, write by write. *)
Fixpoint stdout_of (evs : list Event) : list string :=
  match evs with
  | [] => []
  | EvStdout text :: rest => text :: stdout_of rest
  | _ :: rest => stdout_of rest
  end.

(** The pauses taken, in order. *)
Fixpoint sleeps_of (evs : list Event) : list Z :=
  match evs with
  | [] => []
  | EvSleep d :: rest => d :: sleeps_of rest
  | _ :: rest => sleeps_of rest
  end.

(** The number of [hdiutil detach] commands run. *)
Definition detach_attempts (evs : list Event) : nat :=
  List.length (filter (mentions "detach") (spawns_of evs)).


(** Whether [_find_mount_point] was entered: it alone resolves a path. *)
Definition ancestor_walked (evs : list Event) : bool :=
  existsb (fun e => match e with
                    | EvOs call _ => String.eqb call "realpath"
                    | _ => false
                    end) evs.

(** What was written to the file [p], write by write. *)
Fixpoint writes_to (p : Path) (evs : list Event) : list string :=
  match evs with
  | [] => []
  | EvWrite q text :: rest =>
      if String.eqb p q then text :: writes_to p rest else writes_to p rest
  | _ :: rest => writes_to p rest
  end.

Definition opened_for_writing (p : Path) (evs : list Event) : bool :=
  existsb (fun e => match e with
                    | EvOpenWrite q => String.eqb p q
                    | _ => false
                    end) evs.

Fixpoint opens_for_read (evs : list Event) : nat :=
  match evs with
  | [] => O
  | EvOpenRead _ :: rest => S (opens_for_read rest)
  | _ :: rest => opens_for_read rest
  end.

Fixpoint bytes_read (evs : list Event) : nat :=
  match evs with
  | [] => O
  | EvRead _ n :: rest => (n + bytes_read rest)%nat
  | _ :: rest => bytes_read rest
  end.

(** The percentages shown, parsed back from the markers ["N% "]. *)
Definition is_marker (percent : Z) (text : string) : bool :=
  String.eqb text (PyStr.of_Z percent ++ "% ").

(** Every character is one of [0-9a-f]. *)
Fixpoint lower_hex (s : string) : bool :=
  match s with
  | EmptyString => true
  | String c s' =>
      existsb (Ascii.eqb c) (list_ascii_of_string "0123456789abcdef") && lower_hex s'
  end.

(** The hash object [h] after further [update]s with [chunks]. *)
Definition fed (h : Hashlib.hash_obj) (chunks : list (list byte)) : Hashlib.hash_obj :=
  Hashlib.mk_hash_obj (Hashlib.h_algo h) (Hashlib.h_fed h ++ chunks)%list.

(** The report file of a run with parameters [params]. *)
Definition report_path (params : Parameters) : Path :=
  PathLib.div (PathLib.div (destination params) (image_name params))
              (image_name params ++ ".txt").

(* ================================================================== *)
(** ** Concrete environments                                             *)
(* ================================================================== *)

Definition busy : string := "hdiutil: couldn't eject: Resource busy" ++ PyStr.nl.

(** An environment whose every command exits with status 1. *)
Definition always_failing : World :=
  mkWorld (fun k => Z.of_nat k) (fun _ _ => (1, busy))
          (fun _ => false) (fun p => p) (fun _ => (0, 0)) (fun _ => 0)
          (fun _ => 0) (fun _ => []).

(** An environment whose first command exits with status 1 and whose
    later commands succeed. *)
Definition failing_once : World :=
  mkWorld (fun k => Z.of_nat k)
          (fun k _ => match k with O => (1, busy) | S _ => (0, "") end)
          (fun _ => false) (fun p => p) (fun _ => (0, 0)) (fun _ => 0)
          (fun _ => 0) (fun _ => []).

(** The state of a strategy whose temporary image is attached as [v]. *)
Definition attached (v : string) : State := mkState 0 0 [] None (Some v) None.

(** An environment where every path holds the bytes [content]. *)
Definition file_world (content : list byte) : World :=
  mkWorld (fun k => Z.of_nat k) (fun _ _ => (1, ""))
          (fun _ => false) (fun p => p) (fun _ => (0, 0)) (fun _ => 0)
          (fun _ => Z.of_nat (List.length content)) (fun _ => content).

Definition tab : string := String (ascii_of_nat 9) EmptyString.

(** An interactive session on a Mac: the source is the root volume, the
    operator picks [/Users/x/snap.dmg], which mounts on [/Volumes/Snap],
    and then the destination [/Users/x/out/].  The exit status of the
    volume-info query, of the two choosers, of the attach, of the copy and
    of the detach are the parameters, so is the statistics of the source. *)
Record Session : Type := mkSession {
  info_code : Z;
  image_code : Z;
  attach_code : Z;
  destination_code : Z;
  copy_code : Z;
  detach_code : Z;
  blocks : Z;
  block_size : Z
}.

Definition session_answers (c : Session) (argv : list string) : Z * string :=
  if argv_eqb argv ["caffeinate"; "-dimsu"; "system_profiler"; "SPHardwareDataType"]
  then (0, "Hardware:" ++ PyStr.nl ++ "  Model Name: MacBook Pro" ++ PyStr.nl)
  else if argv_eqb argv ["caffeinate"; "-dimsu"; "diskutil"; "info"; "/"]
  then (info_code c,
        "   Device Identifier:   disk1s1" ++ PyStr.nl
        ++ "   Device Node:   /dev/disk1s1" ++ PyStr.nl)
  else if argv_eqb argv ["osascript"; "-e"; image_script]
  then (image_code c, "/Users/x/snap.dmg" ++ PyStr.nl)
  else if argv_eqb argv ["caffeinate"; "-dimsu"; "hdiutil"; "attach"; "/Users/x/snap.dmg"]
  then (attach_code c,
        "/dev/disk4 " ++ tab ++ "GUID_partition_scheme " ++ tab ++ PyStr.nl
        ++ "/dev/disk4s1 " ++ tab ++ "Apple_HFS " ++ tab ++ "/Volumes/Snap" ++ PyStr.nl)
  else if argv_eqb argv ["osascript"; "-e"; destination_script]
  then (destination_code c, "/Users/x/out/" ++ PyStr.nl)
  else if argv_eqb argv ["caffeinate"; "-dimsu"; "ditto"; "-c"; "--keepParent";
                         "/Volumes/Snap"; "/Users/x/out/"]
  then (copy_code c, "")
  else if argv_eqb argv ["df"; "/Volumes/Snap"]
  then (0, "Filesystem 512-blocks Used Available Capacity Mounted on" ++ PyStr.nl
           ++ "/dev/disk4s1 100 50 50 50% /Volumes/Snap" ++ PyStr.nl)
  else if argv_eqb argv ["caffeinate"; "-dimsu"; "hdiutil"; "detach"; "/dev/disk4s1"]
  then (detach_code c, "")
  else (1, "").

Definition session (c : Session) : World :=
  mkWorld (fun k => 1000 + Z.of_nat k) (fun _ => session_answers c)
          (fun p => String.eqb p "/" || String.eqb p "/Volumes/Snap")
          (fun p => p) (fun _ => (blocks c, block_size c))
          (fun _ => 16777220) (fun _ => 0) (fun _ => []).

(** Every step succeeds. *)
Definition all_succeed : Session := mkSession 0 0 0 0 0 0 1000 512.

(** The parameters of the acquisition of the examples. *)
Definition case1 : Parameters :=
  mkParameters "CASE1" "J. Doe" "" "FujiAcquisition" "/" "/Volumes/Fuji" "/Volumes/Fuji".

(** The sizes of the reads, in order. *)
Fixpoint reads_of (evs : list Event) : list Z :=
  match evs with
  | [] => []
  | EvRead _ n :: rest => Z.of_nat n :: reads_of rest
  | _ :: rest => reads_of rest
  end.

(** The report object of a state, whether or not the run returned it. *)
Definition report_of (s : State) : Report :=
  match st_report s with
  | Some r => r
  | None => new_Report default_Parameters SnapshotMountMethod 0
  end.

(** The text the hardware profiler answers to the first command of a run. *)
Definition hardware_of (w : World) : string :=
  snd (w_proc w 0 ["caffeinate"; "-dimsu"; "system_profiler"; "SPHardwareDataType"]).

(** The state in which [execute] inspects the source path: the clock was
    read once, the hardware profiler has run, and the report holds the
    parameters, the start time and the hardware description. *)
Definition inspecting (w : World) (params : Parameters) : State :=
  mkState 1 1
          [EvSpawn ["caffeinate"; "-dimsu"; "system_profiler"; "SPHardwareDataType"]]
          (Some (set_hardware_info (hardware_of w)
                   (new_Report params SnapshotMountMethod (w_now w 0))))
          None None.



(** The session in which the volume-info query of the source exits 1. *)
Definition query_fails_run : Outcome PathDetails * State :=
  _gather_path_info (session (mkSession 1 0 0 0 0 0 1000 512)) 2 "/" initial_State.

(** A mantissa that is not negative and has at most [B] binary digits. *)
Definition small_mantissa (B : Z) (mrs : shr_record) : Prop :=
  0 <= shr_m mrs /\ Zdigits2 (shr_m mrs) <= B.

Definition finite_or_zero (x : spec_float) : Prop :=
  match x with
  | S754_zero _ => True
  | S754_finite _ _ _ => True
  | _ => False
  end.

(** [appends m]: [m] only adds events.  [keeps_report m]: [m] touches
    neither the [Report] object nor [self.output_report]. *)
Definition appends {A} (m : M A) : Prop :=
  forall s, exists evs, st_events (snd (m s)) = (st_events s ++ evs)%list.

Definition keeps_report {A} (m : M A) : Prop :=
  forall s, st_report (snd (m s)) = st_report s
            /\ self_output_report (snd (m s)) = self_output_report s.


(* ================================================================== *)
(** ** The temporary image ([abstract.py], lines 136-167 and 184-201)    *)
(* ================================================================== *)

(** The attributes [self.temporary_path] and [self.output_path], which
    [_create_temporary_image] and [_generate_dmg] assign; they are passed
    through these two methods explicitly. *)
Record ImageAttrs : Type := mkImageAttrs {
  self_temporary_path : option Path;
  self_output_path : option Path
}.

(** The class attributes before any assignment. *)
Definition no_image : ImageAttrs := mkImageAttrs None None.

(** [str(p)] of a path attribute that may still be [None]. *)
Definition str_of_opt_path (o : option Path) : string :=
  match o with
  | Some p => p
  | None => "None"
  end.

Definition set_self_temporary_volume (v : option string) : M unit :=
  fun s => (Returned tt,
            mkState (st_clock s) (st_spawned s) (st_events s) (st_report s)
                    v (self_output_report s)).

(** The image file of an acquisition with parameters [params]. *)
Definition sparseimage_path (params : Parameters) : Path :=
  PathLib.div (PathLib.div (tmp params) (image_name params))
              (image_name params ++ ".sparseimage").

(** The compressed image of an acquisition with parameters [params]. *)
Definition dmg_path (params : Parameters) : Path :=
  PathLib.div (PathLib.div (destination params) (image_name params))
              (image_name params ++ ".dmg").

Section ImageMethods.

Variable w : World.

(** [_create_temporary_image], lines 136-167 *)
Definition _create_temporary_image (a : ImageAttrs) : M (bool * ImageAttrs) :=
  report <- get_report ;;
  let params := parameters report in
  let output_directory := PathLib.div (tmp params) (image_name params) in
  emit (EvMkdir output_directory) ;;;
  details <- attr "disk_sectors" (path_details report) ;;
  let sectors := disk_sectors details in
  let temporary_path := PathLib.div output_directory (image_name params ++ ".sparseimage") in
  let a := mkImageAttrs (Some temporary_path) (self_output_path a) in
  let image_path := temporary_path in
  set_self_temporary_volume None ;;;
  '(result, output) <-
    _run_process w ["hdiutil"; "create"; "-sectors"; PyStr.of_Z sectors;
                    "-volname"; image_name params; image_path] true ;;
  if 0 <? result then ret (false, a)
  else
    '(result, output) <- _run_process w ["hdiutil"; "attach"; image_path] true ;;
    volume <- index (PyStr.split_on " " (PyStr.strip output)) 0 ;;
    set_self_temporary_volume (Some volume) ;;;
    let success := result =? 0 in
    (if success then modify_report (append_output_file temporary_path) else ret tt) ;;;
    ret (success, a).

(** [_generate_dmg], lines 184-201 *)
Definition _generate_dmg (a : ImageAttrs) : M (bool * ImageAttrs) :=
  report <- get_report ;;
  let params := parameters report in
  let output_directory := PathLib.div (destination params) (image_name params) in
  emit (EvMkdir output_directory) ;;;
  let output_path := PathLib.div output_directory (image_name params ++ ".dmg") in
  let a := mkImageAttrs (self_temporary_path a) (Some output_path) in
  print [PyStr.nl ++ "Converting"; str_of_opt_path (self_temporary_path a); "->";
         output_path] ;;;
  let sparseimage := str_of_opt_path (self_temporary_path a) in
  let dmg := output_path in
  '(result, _) <-
    _run_process w ["hdiutil"; "convert"; sparseimage; "-format"; "UDZO"; "-o"; dmg] true ;;
  let success := result =? 0 in
  (if success then modify_report (append_output_file output_path) else ret tt) ;;;
  ret (success, a).

End ImageMethods.

(** The state of a strategy whose report has been set up and inspected. *)
Definition with_report (r : Report) : State := mkState 1 0 [] (Some r) None None.

(** An environment for the temporary image: the first three commands
    (create, attach, convert) exit with the given statuses, and the attach
    names the device it attached. *)
Definition image_world (create attach convert : Z) : World :=
  mkWorld (fun k => Z.of_nat k)
          (fun k _ => match k with
                      | O => (create, "created")
                      | S O => (attach, "/dev/disk5 " ++ tab ++ "GUID_partition_scheme"
                                        ++ PyStr.nl)
                      | _ => (convert, "")
                      end)
          (fun _ => false) (fun p => p) (fun _ => (0, 0)) (fun _ => 0)
          (fun _ => 0) (fun _ => []).

(** The report of [case1] after the inspection of a volume of 1000
    sectors. *)
Definition inspected_case1 : Report :=
  set_path_details (mkPathDetails "/" true 1000 "/dev/disk1s1" 16777220 "")
                   (new_Report case1 SnapshotMountMethod 0).

(** The events of writing [lines] to [p], one write per line. *)
Definition line_writes (p : Path) (lines : list string) : list Event :=
  map (fun line => EvWrite p (line ++ PyStr.nl)) lines.

(** A report that can be written: inspected, with generated files and a
    hashed result. *)
Definition finished_case1 : Report :=
  mkReport case1 SnapshotMountMethod (Some 1000) (Some 2000)
           (Some (mkPathDetails "/" true 1000 "/dev/disk1s1" 16777220 "Device: disk1s1"))
           "Model Name: MacBook Pro" true
           ["/Volumes/Fuji/FujiAcquisition/FujiAcquisition.sparseimage";
            "/Volumes/Fuji/FujiAcquisition/FujiAcquisition.dmg"]
           (Some (mkHashedFile "/Volumes/Fuji/FujiAcquisition/FujiAcquisition.dmg"
                    "d41d8cd98f00b204e9800998ecf8427e"
                    "da39a3ee5e6b4b0d3255bfef95601890afd80709"
                    "e3b0c44298fc1c149afbf4c8996fb92427ae41e4649b934ca495991b7852b855")).

(** Whether the character [c] occurs in [s]. *)
Definition has_char (c : ascii) (s : string) : bool :=
  existsb (Ascii.eqb c) (list_ascii_of_string s).

(** An environment with the root, under each of its spellings, and one
    more mounted volume, [/Volumes/Data], whose volume-info query
    succeeds. *)
Definition two_volumes : World :=
  mkWorld (fun k => Z.of_nat k)
          (fun _ argv =>
             if argv_eqb argv ["caffeinate"; "-dimsu"; "diskutil"; "info"; "/Volumes/Data"]
             then (0, "   Device Identifier:   disk7s1" ++ PyStr.nl
                      ++ "   Device Node:   /dev/disk7s1" ++ PyStr.nl)
             else (1, ""))
          (fun p => (PyStr.truthy p && PathLib.all_slashes p)
                    || String.eqb p "/Volumes/Data")
          (fun p => p)
          (fun p => if String.eqb p "/Volumes/Data" then (1000, 512) else (16, 512))
          (fun _ => 16777231) (fun _ => 0) (fun _ => []).

(* ================================================================== *)
(** ** The string and path primitives on examples                        *)
(* ================================================================== *)

Example strip_ex : PyStr.strip "  /dev/disk4 	" = "/dev/disk4".
Proof. reflexivity. Qed.
Example splitlines_ex :
  PyStr.splitlines (String "a" (String PyStr.CR (String PyStr.LF (String PyStr.LF "b"))))
  = ["a"; ""; "b"].
Proof. reflexivity. Qed.
Example splitlines_trailing : PyStr.splitlines (String "a" PyStr.nl) = ["a"].
Proof. reflexivity. Qed.
Example split_on_ex : PyStr.split_on ":" "a: b:c" = ["a"; " b"; "c"].
Proof. reflexivity. Qed.
Example split_on_none : PyStr.split_on ":" "abc" = ["abc"].
Proof. reflexivity. Qed.
Example split_ws_ex : PyStr.split_ws "  /dev/disk4s1   12 3 " = ["/dev/disk4s1"; "12"; "3"].
Proof. reflexivity. Qed.
Example re_split_ex :
  PyStr.re_split_ws 2 "/dev/disk4s1  Apple_HFS   /Volumes/My Disk"
  = ["/dev/disk4s1"; "Apple_HFS"; "/Volumes/My Disk"].
Proof. reflexivity. Qed.
Example re_split_lead : PyStr.re_split_ws 2 " a b c" = [""; "a"; "b c"].
Proof. reflexivity. Qed.
Example re_split_short : PyStr.re_split_ws 2 "/Volumes/x" = ["/Volumes/x"].
Proof. reflexivity. Qed.
Example of_Z_ex : PyStr.of_Z 1638400 = "1638400" /\ PyStr.of_Z (-1) = "-1" /\ PyStr.of_Z 0 = "0".
Proof. repeat split; reflexivity. Qed.
Example pathlib_examples :
  PathLib.of_str "/Users/x/out/" = "/Users/x/out"
  /\ PathLib.div "/" "x" = "/x"
  /\ PathLib.div "/a/b" "c.txt" = "/a/b/c.txt"
  /\ PathLib.of_str "" = "."
  /\ PathLib.of_str "//a//b/./c/" = "//a/b/c"
  /\ PathLib.of_str "///a" = "/a".
Proof. repeat split; reflexivity. Qed.
Example dirname_examples :
  PathLib.dirname "/a/b" = "/a" /\ PathLib.dirname "/a" = "/"
  /\ PathLib.dirname "/" = "/" /\ PathLib.dirname "a" = ""
  /\ PathLib.dirname "//a" = "//" /\ PathLib.dirname "/a/b/" = "/a/b".
Proof. repeat split; reflexivity. Qed.

(* ================================================================== *)
(** ** Stepping through a computation                                    *)
(* ================================================================== *)

(** Unfolds the monad and the methods one layer and projects the state
    records; what the environment answers is left for case analysis. *)
Ltac mrun :=
  repeat (progress (
    cbv beta iota delta
      [bind ret raise out_of_fuel emit print print_noeol index attr
       get_report put_report modify_report set_self_output_report
       get_self_temporary_volume try_CalledProcessError or_OverflowError
       floordiv now spawn sleep ismount realpath statvfs stat_st_dev
       stat_st_size _run_silent _run_process run_checked caffeinate
       py_truthy negb detach_loop];
    cbn [st_clock st_spawned st_events st_report self_temporary_volume
         self_output_report fst snd])).

(* ================================================================== *)
(** ** Bounded retry of the detach ([_detach_temporary_image])           *)
(* ================================================================== *)

Lemma spawns_of_app (a b : list Event) :
  spawns_of (a ++ b)%list = (spawns_of a ++ spawns_of b)%list.
Proof.
  induction a as [|e a IH]; simpl; [reflexivity|].
  destruct e; simpl; rewrite IH; reflexivity.
Qed.

Lemma sleeps_of_app (a b : list Event) :
  sleeps_of (a ++ b)%list = (sleeps_of a ++ sleeps_of b)%list.
Proof.
  induction a as [|e a IH]; simpl; [reflexivity|].
  destruct e; simpl; rewrite IH; reflexivity.
Qed.

(** Whatever the environment answers, the loop of
    [_detach_temporary_image] runs the detach command exactly once: a
    nonzero exit status is a true value, so [while not result] is left
    after the first failure. *)
Lemma _detach_temporary_image_single_attempt
      (w : World) (fuel : nat) (delay interval attempts : Z) (s : State) (v : string) :
  self_temporary_volume s = Some v ->
  let argv := ["caffeinate"; "-dimsu"; "hdiutil"; "detach"; v] in
  let r := _detach_temporary_image w (S (S fuel)) delay interval attempts s in
  fst r = Returned (fst (w_proc w (st_spawned s) argv) =? 0)
  /\ spawns_of (st_events (snd r)) = (spawns_of (st_events s) ++ [argv])%list.
Proof.
  intros Hv argv r. subst r argv.
  unfold _detach_temporary_image. mrun. rewrite Hv. mrun.
  destruct (w_proc w (st_spawned s) ["caffeinate"; "-dimsu"; "hdiutil"; "detach"; v])
    as [code out] eqn:E.
  mrun.
  destruct (code =? 0) eqn:Hc; mrun.
  - split; [reflexivity|].
    rewrite !spawns_of_app; cbn; rewrite ?app_nil_r; reflexivity.
  - destruct (1 + 1 =? attempts) eqn:Ha; mrun.
    + split; [reflexivity|].
      rewrite !spawns_of_app; cbn; rewrite ?app_nil_r; reflexivity.
    + split; [reflexivity|].
      rewrite !spawns_of_app; cbn; rewrite ?app_nil_r; reflexivity.
Qed.

(** C4, at [attempts=3].  With a detach command that always exits
    nonzero, [_detach_temporary_image] runs the command once, pauses
    [interval] once and returns [False]: one attempt, where the
    specification has exactly three.  With a command that fails once and
    would succeed when retried, it also stops after the first attempt and
    returns [False], where the specification has success after two. *)
Theorem detach_gives_up_after_first_failure :
  forall fuel : nat,
    let always := _detach_temporary_image always_failing (S (S fuel)) 30 10 3
                                          (attached "/dev/disk4") in
    let once := _detach_temporary_image failing_once (S (S fuel)) 30 10 3
                                        (attached "/dev/disk4") in
    fst always = Returned false
    /\ detach_attempts (st_events (snd always)) = 1%nat
    /\ sleeps_of (st_events (snd always)) = [30; 10]
    /\ fst once = Returned false
    /\ detach_attempts (st_events (snd once)) = 1%nat.
Proof.
  intros fuel always once. subst always once.
  repeat split; reflexivity.
Qed.

(* ================================================================== *)
(** ** The hash engine ([_compute_hashes])                               *)
(* ================================================================== *)

Lemma opens_for_read_app (a b : list Event) :
  opens_for_read (a ++ b)%list = (opens_for_read a + opens_for_read b)%nat.
Proof.
  induction a as [|e a IH]; simpl; [reflexivity|].
  destruct e; simpl; rewrite IH; reflexivity.
Qed.

Lemma bytes_read_app (a b : list Event) :
  bytes_read (a ++ b)%list = (bytes_read a + bytes_read b)%nat.
Proof.
  induction a as [|e a IH]; simpl; [reflexivity|].
  destruct e; simpl; rewrite IH; lia.
Qed.

Lemma chunk_size_pos : (0 < chunk_size)%nat.
Proof. unfold chunk_size. lia. Qed.

Lemma firstn_nil_inv {A} (n : nat) (l : list A) :
  (0 < n)%nat -> firstn n l = [] -> l = [].
Proof.
  intros Hn H. destruct n; [lia|]. destruct l; [reflexivity|discriminate].
Qed.

Lemma skipn_shorter {A} (n : nat) (l : list A) :
  (0 < n)%nat -> l <> [] -> (List.length (skipn n l) < List.length l)%nat.
Proof.
  intros Hn Hl. rewrite length_skipn. destruct l; [congruence|]. cbn [List.length]. lia.
Qed.

Lemma fed_nil (h : Hashlib.hash_obj) : fed h [] = h.
Proof. destruct h. unfold fed. simpl. rewrite app_nil_r. reflexivity. Qed.

Lemma fed_update (h : Hashlib.hash_obj) (c : list byte) (cs : list (list byte)) :
  fed (Hashlib.update h c) cs = fed h (c :: cs).
Proof. unfold fed, Hashlib.update. simpl. rewrite <- app_assoc. reflexivity. Qed.

Opaque chunk_size.

(** The loop goes on with the rest of the file: the induction hypothesis
    gives the chunks and events of the remaining iterations. *)
Ltac loop_continues IH :=
  match goal with
  | Hlen : (List.length (skipn chunk_size ?f) < ?fuel)%nat,
    Htotal : ?total <> 0,
    Hsplit : (?c ++ skipn chunk_size ?f)%list = ?f,
    Hcount : (List.length ?c + List.length (skipn chunk_size ?f))%nat = List.length ?f
    |- context [hash_loop ?fuel ?p ?total (skipn chunk_size ?f) ?a ?l ?x ?y ?z ?s] =>
      let chunks := fresh "chunks" in
      let evs := fresh "evs" in
      let Hrun := fresh "Hrun" in
      let Hcat := fresh "Hcat" in
      let Hop := fresh "Hop" in
      let Hrd := fresh "Hrd" in
      destruct (IH p total (skipn chunk_size f) a l x y z s Hlen (fun _ => Htotal))
        as (chunks & evs & Hrun & Hcat & Hop & Hrd);
      rewrite Hrun;
      cbn [st_clock st_spawned st_events st_report
           self_temporary_volume self_output_report];
      exists (c :: chunks); eexists;
      rewrite !fed_update, <- !app_assoc;
      split; [reflexivity|];
      cbn [List.concat]; rewrite Hcat; split; [exact Hsplit|];
      cbn [app opens_for_read bytes_read];
      split; [exact Hop|]; rewrite Hrd; exact Hcount
  end.

(** The read loop hands every chunk it reads to all three hash objects,
    the chunks together are the file, and each byte is read once. *)
Lemma hash_loop_feeds_every_chunk :
  forall (fuel : nat) (p : Path) (total : Z) (f : list byte) (amount last : Z)
         (h1 h2 h3 : Hashlib.hash_obj) (s : State),
    (List.length f < fuel)%nat ->
    (f <> [] -> total <> 0) ->
    exists (chunks : list (list byte)) (evs : list Event),
      hash_loop fuel p total f amount last h1 h2 h3 s
      = (Returned (fed h1 chunks, fed h2 chunks, fed h3 chunks),
         mkState (st_clock s) (st_spawned s) (st_events s ++ evs)%list
                 (st_report s) (self_temporary_volume s) (self_output_report s))
      /\ List.concat chunks = f
      /\ opens_for_read evs = 0%nat
      /\ bytes_read evs = List.length f.
Proof.
  induction fuel as [|fuel IH]; intros p total f amount last h1 h2 h3 s Hfuel Htotal;
    [lia|].
  cbn [hash_loop]. mrun.
  destruct (firstn chunk_size f) as [|b chunk] eqn:Hchunk.
  - apply firstn_nil_inv in Hchunk; [|exact chunk_size_pos]. subst f.
    mrun. exists [], [EvRead p 0; EvStdout (PyStr.join " " [""] ++ PyStr.nl)].
    rewrite !fed_nil, <- app_assoc. repeat split.
  - assert (Hf : f <> []) by (intro; subst f; rewrite firstn_nil in Hchunk; discriminate).
    specialize (Htotal Hf).
    destruct (total =? 0) eqn:Hz; [apply Z.eqb_eq in Hz; contradiction|].
    assert (Hlen : (List.length (skipn chunk_size f) < fuel)%nat).
    { pose proof (skipn_shorter chunk_size f chunk_size_pos Hf). lia. }
    assert (Hsplit : ((b :: chunk) ++ skipn chunk_size f)%list = f).
    { rewrite <- Hchunk. apply firstn_skipn. }
    assert (Hcount : (List.length (b :: chunk) + List.length (skipn chunk_size f))%nat
                     = List.length f).
    { rewrite <- length_app, Hsplit. reflexivity. }
    mrun.
    set (percent := 100 * (amount + Z.of_nat chunk_size) / total).
    destruct (last <? percent) eqn:Hlt; mrun.
    + destruct (percent mod 20 =? 0) eqn:Hmod; mrun; loop_continues IH.
    + loop_continues IH.
Qed.

(** Hexadecimal rendering: two characters per byte, all in [0-9a-f]. *)
Lemma hex_of_bytes_length (l : list Z) :
  String.length (Hashlib.hex_of_bytes l) = (2 * List.length l)%nat.
Proof.
  induction l as [|b l IH]; [reflexivity|].
  cbn [Hashlib.hex_of_bytes String.length List.length]. rewrite IH. lia.
Qed.

Lemma le_bytes_length (n : nat) (x : Z) : List.length (Hashlib.le_bytes n x) = n.
Proof. unfold Hashlib.le_bytes. rewrite length_map, length_seq. reflexivity. Qed.

Lemma be_bytes_length (n : nat) (x : Z) : List.length (Hashlib.be_bytes n x) = n.
Proof. unfold Hashlib.be_bytes. rewrite length_rev. apply le_bytes_length. Qed.

Lemma hex_digit_lower (x : Z) :
  existsb (Ascii.eqb (Hashlib.hex_digit x)) (list_ascii_of_string "0123456789abcdef") = true.
Proof.
  unfold Hashlib.hex_digit.
  assert (H : (Z.to_nat (x mod 16) < 16)%nat) by (pose proof (Z.mod_pos_bound x 16); lia).
  remember (Z.to_nat (x mod 16)) as k eqn:Hk. clear Hk.
  do 16 (destruct k as [|k]; [reflexivity|]). lia.
Qed.

Lemma hex_of_bytes_lower (l : list Z) : lower_hex (Hashlib.hex_of_bytes l) = true.
Proof.
  induction l as [|b l IH]; [reflexivity|].
  cbn [Hashlib.hex_of_bytes lower_hex]. rewrite !hex_digit_lower, IH. reflexivity.
Qed.

Lemma md5_hex_shape (bs : list byte) :
  String.length (Hashlib.md5_hex bs) = 32%nat /\ lower_hex (Hashlib.md5_hex bs) = true.
Proof.
  unfold Hashlib.md5_hex.
  destruct (Hashlib.md5_words (map Hashlib.byte_val bs)) as [[[a b] c] d].
  split; [|apply hex_of_bytes_lower].
  rewrite hex_of_bytes_length, !length_app, !le_bytes_length. reflexivity.
Qed.

Lemma sha1_hex_shape (bs : list byte) :
  String.length (Hashlib.sha1_hex bs) = 40%nat /\ lower_hex (Hashlib.sha1_hex bs) = true.
Proof.
  unfold Hashlib.sha1_hex.
  destruct (Hashlib.sha1_words (map Hashlib.byte_val bs)) as [[[[a b] c] d] e].
  split; [|apply hex_of_bytes_lower].
  rewrite hex_of_bytes_length, !length_app, !be_bytes_length. reflexivity.
Qed.

Lemma sha256_hex_shape (bs : list byte) :
  String.length (Hashlib.sha256_hex bs) = 64%nat /\ lower_hex (Hashlib.sha256_hex bs) = true.
Proof.
  unfold Hashlib.sha256_hex.
  destruct (Hashlib.sha256_words (map Hashlib.byte_val bs)) as [[[[[[[a b] c] d] e] f] g] h].
  split; [|apply hex_of_bytes_lower].
  rewrite hex_of_bytes_length, !length_app, !be_bytes_length. reflexivity.
Qed.

(** The digests are those of the standard algorithms on known inputs. *)
Example digests_of_abc :
  let abc := [x61; x62; x63] in
  Hashlib.md5_hex abc = "900150983cd24fb0d6963f7d28e17f72"
  /\ Hashlib.sha1_hex abc = "a9993e364706816aba3e25717850c26c9cd0d89d"
  /\ Hashlib.sha256_hex abc
     = "ba7816bf8f01cfea414140de5dae2223b00361a396177a9cb410ff61f20015ad".
Proof. vm_compute. repeat split. Qed.

(** A message of two blocks. *)
Example digests_of_two_blocks :
  let msg := repeat x61 100 in
  Hashlib.md5_hex msg = "36a92cc94a9e0fa21f625f8bfb007adf"
  /\ Hashlib.sha1_hex msg = "7f9000257a4918d7072655ea468540cdcbd42e0c"
  /\ Hashlib.sha256_hex msg
     = "2816597888e4a0d3a36b82b83316ab32680eb8f00f8cd3b904d681246d285a0e".
Proof. vm_compute. repeat split. Qed.

(** C5.  For every content of the file (whose size [os.stat] reports
    truly), [_compute_hashes] returns, given fuel beyond the number of
    chunks, the MD5, SHA-1 and SHA-256 digests of the whole content as
    the one-shot algorithms compute them; they are lowercase hexadecimal
    strings of 32, 40 and 64 characters; and the file is opened once and
    each of its bytes is read once, the same chunks going to the three
    hash objects ([hash_loop_feeds_every_chunk]). *)
Theorem compute_hashes_digests_of_content :
  forall (w : World) (fuel : nat) (p : Path) (s : State),
    w_stat_size w p = Z.of_nat (List.length (w_file w p)) ->
    (List.length (w_file w p) < fuel)%nat ->
    exists evs : list Event,
      _compute_hashes w fuel p s
      = (Returned (mkHashedFile p (Hashlib.md5_hex (w_file w p))
                                (Hashlib.sha1_hex (w_file w p))
                                (Hashlib.sha256_hex (w_file w p))),
         mkState (st_clock s) (st_spawned s) (st_events s ++ evs)%list
                 (st_report s) (self_temporary_volume s) (self_output_report s))
      /\ opens_for_read evs = 1%nat
      /\ bytes_read evs = List.length (w_file w p)
      /\ String.length (Hashlib.md5_hex (w_file w p)) = 32%nat
      /\ String.length (Hashlib.sha1_hex (w_file w p)) = 40%nat
      /\ String.length (Hashlib.sha256_hex (w_file w p)) = 64%nat
      /\ lower_hex (Hashlib.md5_hex (w_file w p)) = true
      /\ lower_hex (Hashlib.sha1_hex (w_file w p)) = true
      /\ lower_hex (Hashlib.sha256_hex (w_file w p)) = true.
Proof.
  intros w fuel p s Hsize Hfuel.
  unfold _compute_hashes. mrun.
  match goal with
  | |- context [hash_loop fuel p ?t ?f ?a ?l ?x ?y ?z ?s1] =>
      destruct (hash_loop_feeds_every_chunk fuel p t f a l x y z s1 Hfuel)
        as (chunks & evs & Hrun & Hcat & Hop & Hrd)
  end.
  { intros Hne Hz. rewrite Hsize in Hz. destruct (w_file w p); [congruence|discriminate]. }
  rewrite Hrun. mrun.
  unfold Hashlib.hexdigest, fed, Hashlib.md5, Hashlib.sha1, Hashlib.sha256, Hashlib.new.
  cbn [Hashlib.h_algo Hashlib.h_fed app]. rewrite Hcat.
  eexists. rewrite <- !app_assoc. split; [reflexivity|].
  cbn [app opens_for_read bytes_read]. rewrite Hop, Hrd.
  pose proof (md5_hex_shape (w_file w p)) as [? ?].
  pose proof (sha1_hex_shape (w_file w p)) as [? ?].
  pose proof (sha256_hex_shape (w_file w p)) as [? ?].
  repeat split; assumption || reflexivity.
Qed.

Lemma compute_hashes_digests_of_content_witness :
  exists evs : list Event,
    _compute_hashes (file_world [x61; x62; x63]) 4 "/Volumes/Fuji/a.dmg" initial_State
    = (Returned (mkHashedFile "/Volumes/Fuji/a.dmg"
                   (Hashlib.md5_hex [x61; x62; x63])
                   (Hashlib.sha1_hex [x61; x62; x63])
                   (Hashlib.sha256_hex [x61; x62; x63])),
       mkState 0 0 evs None None None)
    /\ opens_for_read evs = 1%nat
    /\ bytes_read evs = 3%nat
    /\ String.length (Hashlib.md5_hex [x61; x62; x63]) = 32%nat
    /\ String.length (Hashlib.sha1_hex [x61; x62; x63]) = 40%nat
    /\ String.length (Hashlib.sha256_hex [x61; x62; x63]) = 64%nat
    /\ lower_hex (Hashlib.md5_hex [x61; x62; x63]) = true
    /\ lower_hex (Hashlib.sha1_hex [x61; x62; x63]) = true
    /\ lower_hex (Hashlib.sha256_hex [x61; x62; x63]) = true.
Proof.
  apply (compute_hashes_digests_of_content
           (file_world [x61; x62; x63]) 4 "/Volumes/Fuji/a.dmg" initial_State).
  - reflexivity.
  - simpl. lia.
Defined.

Lemma digests_of_nothing :
  Hashlib.md5_hex [] = "d41d8cd98f00b204e9800998ecf8427e"
  /\ Hashlib.sha1_hex [] = "da39a3ee5e6b4b0d3255bfef95601890afd80709"
  /\ Hashlib.sha256_hex []
     = "e3b0c44298fc1c149afbf4c8996fb92427ae41e4649b934ca495991b7852b855".
Proof. vm_compute. repeat split. Qed.

(** C9.  On a file of length zero (no content, size 0) [_compute_hashes]
    returns: the first read is empty, so the loop is left before the
    division by [total_size]; the only console output after the heading
    is the closing line break, with no percentage before it; and the
    digests are the constants of the empty input. *)
Theorem compute_hashes_zero_length :
  forall (w : World) (fuel : nat) (p : Path) (s : State),
    w_file w p = [] ->
    w_stat_size w p = 0 ->
    _compute_hashes w (S fuel) p s
    = (Returned (mkHashedFile p "d41d8cd98f00b204e9800998ecf8427e"
                   "da39a3ee5e6b4b0d3255bfef95601890afd80709"
                   "e3b0c44298fc1c149afbf4c8996fb92427ae41e4649b934ca495991b7852b855"),
       mkState (st_clock s) (st_spawned s)
               (st_events s
                ++ [EvStdout (PyStr.nl ++ "Hashing " ++ p ++ PyStr.nl);
                    EvOs "stat" p; EvOpenRead p; EvRead p 0; EvStdout PyStr.nl])%list
               (st_report s) (self_temporary_volume s) (self_output_report s)).
Proof.
  intros w fuel p s Hfile Hsize.
  unfold _compute_hashes. mrun. cbn [hash_loop]. rewrite Hfile, Hsize, firstn_nil. mrun.
  unfold Hashlib.hexdigest, Hashlib.md5, Hashlib.sha1, Hashlib.sha256, Hashlib.new.
  cbn [Hashlib.h_algo Hashlib.h_fed List.concat].
  destruct digests_of_nothing as (-> & -> & ->).
  rewrite <- !app_assoc. reflexivity.
Qed.

Lemma compute_hashes_zero_length_witness :
  _compute_hashes (file_world []) 1 "/Volumes/Fuji/empty.dmg" initial_State
  = (Returned (mkHashedFile "/Volumes/Fuji/empty.dmg" "d41d8cd98f00b204e9800998ecf8427e"
                 "da39a3ee5e6b4b0d3255bfef95601890afd80709"
                 "e3b0c44298fc1c149afbf4c8996fb92427ae41e4649b934ca495991b7852b855"),
     mkState 0 0
             [EvStdout (PyStr.nl ++ "Hashing /Volumes/Fuji/empty.dmg" ++ PyStr.nl);
              EvOs "stat" "/Volumes/Fuji/empty.dmg"; EvOpenRead "/Volumes/Fuji/empty.dmg";
              EvRead "/Volumes/Fuji/empty.dmg" 0; EvStdout PyStr.nl]
             None None None).
Proof.
  apply (compute_hashes_zero_length (file_world []) 0 "/Volumes/Fuji/empty.dmg"
                                     initial_State); reflexivity.
Defined.

(** The events of [_compute_hashes] are those of its read loop; the
    digests are taken after the last of them. *)
Lemma _compute_hashes_events (w : World) (fuel : nat) (p : Path) (s : State) :
  st_events (snd (_compute_hashes w fuel p s))
  = st_events
      (snd (hash_loop fuel p (w_stat_size w p) (w_file w p) 0 0
              Hashlib.sha1 Hashlib.sha256 Hashlib.md5
              (mkState (st_clock s) (st_spawned s)
                       (st_events s
                        ++ [EvStdout (PyStr.nl ++ "Hashing " ++ p ++ PyStr.nl);
                            EvOs "stat" p; EvOpenRead p])%list
                       (st_report s) (self_temporary_volume s) (self_output_report s)))).
Proof.
  match goal with
  | |- _ = st_events (snd ?loop) => set (L := loop)
  end.
  unfold _compute_hashes. mrun. rewrite <- !app_assoc.
  match goal with
  | |- context [hash_loop ?a ?b ?c ?d ?e ?f ?g ?h ?i ?j] =>
      change (hash_loop a b c d e f g h i j) with L
  end.
  destruct L as [[[[x y] z]|e'|] s']; reflexivity.
Qed.

(** C6, at a file of 20000 bytes.  The reads return 16384 and then 3616
    bytes.  After the first the marker is 81, which is
    [floor(100 * 16384 / 20000)]; after the second the bytes read are
    20000, a progress of 100, and the marker shown is 163: the loop adds
    the chunk size, not the size of the chunk read, to [amount]. *)
Theorem progress_marker_overshoots :
  let p := "/Volumes/Fuji/a.dmg" in
  let evs := st_events (snd (_compute_hashes (file_world (repeat x00 (20 * 1000))) 4 p
                                             initial_State)) in
  reads_of evs = [16384; 3616; 0]
  /\ stdout_of evs
     = [PyStr.nl ++ "Hashing /Volumes/Fuji/a.dmg" ++ PyStr.nl; "81% "; "163% "; PyStr.nl]
  /\ 100 * 16384 / 20000 = 81
  /\ 100 * (16384 + 3616) / 20000 = 100.
Proof.
  intros p evs. subst evs p. rewrite _compute_hashes_events.
  vm_compute. repeat split.
Qed.

(** The same on a file of one byte: the single marker is 1638400. *)
Example progress_marker_one_byte :
  stdout_of (st_events (snd (_compute_hashes (file_world [x00]) 3 "/f" initial_State)))
  = [PyStr.nl ++ "Hashing /f" ++ PyStr.nl; "1638400% "; PyStr.nl; PyStr.nl].
Proof. vm_compute. reflexivity. Qed.

(* ================================================================== *)
(** ** The float detour of the sector count                              *)
(* ================================================================== *)

Lemma digits2_pos_succ (p : positive) :
  (Z.pos (digits2_pos (Pos.succ p)) <= Z.pos (digits2_pos p) + 1).
Proof.
  induction p as [p IH|p IH|]; cbn [Pos.succ digits2_pos]; lia.
Qed.

Lemma digits2_pos_lower (p : positive) : 2 ^ (Z.pos (digits2_pos p) - 1) <= Z.pos p.
Proof.
  induction p as [p IH|p IH|]; cbn [digits2_pos].
  - rewrite Pos2Z.inj_succ.
    replace (Z.succ (Z.pos (digits2_pos p)) - 1) with (Z.succ (Z.pos (digits2_pos p) - 1)) by lia.
    rewrite Z.pow_succ_r by lia. lia.
  - rewrite Pos2Z.inj_succ.
    replace (Z.succ (Z.pos (digits2_pos p)) - 1) with (Z.succ (Z.pos (digits2_pos p) - 1)) by lia.
    rewrite Z.pow_succ_r by lia. lia.
  - reflexivity.
Qed.

Lemma digits2_pos_bound (p : positive) (n : Z) :
  0 <= n -> Z.pos p < 2 ^ n -> Z.pos (digits2_pos p) <= n.
Proof.
  intros Hn Hp. destruct (Z_le_gt_dec (Z.pos (digits2_pos p)) n) as [H|H]; [exact H|].
  exfalso. pose proof (digits2_pos_lower p) as Hl.
  assert (2 ^ n <= 2 ^ (Z.pos (digits2_pos p) - 1)) by (apply Z.pow_le_mono_r; lia).
  lia.
Qed.

Lemma digits2_pos_shift (k m : positive) :
  digits2_pos (Pos.iter xO m k) = (digits2_pos m + k)%positive.
Proof.
  induction k as [|k IH] using Pos.peano_ind.
  - cbn. lia.
  - rewrite Pos.iter_succ. cbn [digits2_pos]. rewrite IH. lia.
Qed.

Lemma shr_1_small (B : Z) (mrs : shr_record) :
  small_mantissa B mrs -> small_mantissa B (shr_1 mrs).
Proof.
  unfold small_mantissa. destruct mrs as [m r s]. cbn [shr_m].
  intros [Hm HB]. destruct m as [|[p|p|]|p]; cbn [shr_1 shr_m Zdigits2 digits2_pos] in *;
    try lia.
Qed.

Lemma iter_pos_small (B : Z) (p : positive) :
  forall mrs, small_mantissa B mrs -> small_mantissa B (iter_pos shr_1 p mrs).
Proof.
  induction p as [p IH|p IH|]; intros mrs H; cbn [iter_pos].
  - apply IH, IH, shr_1_small, H.
  - apply IH, IH, H.
  - apply shr_1_small, H.
Qed.

Lemma shr_record_of_loc_m (m : Z) (l : location) : shr_m (shr_record_of_loc m l) = m.
Proof. destruct l as [|[| |]]; reflexivity. Qed.

Lemma shr_fexp_small (m e : Z) (l : location) (B : Z) :
  0 <= m -> Zdigits2 m <= B ->
  small_mantissa B (fst (shr_fexp 53 1024 m e l))
  /\ snd (shr_fexp 53 1024 m e l) <= Z.max e (fexp 53 1024 (Zdigits2 m + e)).
Proof.
  intros Hm HB. unfold shr_fexp, shr.
  destruct (fexp 53 1024 (Zdigits2 m + e) - e) as [|p|p] eqn:Hn; cbn [fst snd].
  - split; [|lia]. unfold small_mantissa. rewrite shr_record_of_loc_m. lia.
  - split; [|lia]. apply iter_pos_small. unfold small_mantissa.
    rewrite shr_record_of_loc_m. lia.
  - split; [|lia]. unfold small_mantissa. rewrite shr_record_of_loc_m. lia.
Qed.

Lemma round_nearest_even_small (m : Z) (l : location) (B : Z) :
  0 <= m -> Zdigits2 m <= B ->
  0 <= round_nearest_even m l /\ Zdigits2 (round_nearest_even m l) <= B + 1.
Proof.
  intros Hm HB.
  assert (Hs : 0 <= m + 1 /\ Zdigits2 (m + 1) <= B + 1).
  { split; [lia|]. destruct m as [|p|p];
      [change (Zdigits2 (0 + 1)) with 1; cbn [Zdigits2] in HB; lia| |lia].
    replace (Z.pos p + 1) with (Z.pos (Pos.succ p)) by lia. cbn [Zdigits2] in *.
    pose proof (digits2_pos_succ p). lia. }
  destruct l as [|[| |]]; cbn [round_nearest_even]; try (split; lia); try exact Hs.
  destruct (Z.even m); [split; lia|exact Hs].
Qed.

Lemma binary_round_aux_finite (sx : bool) (mx : positive) (ex : Z) :
  Z.pos (digits2_pos mx) <= 200 -> ex <= 200 ->
  finite_or_zero (binary_round_aux 53 1024 sx (Z.pos mx) ex loc_Exact).
Proof.
  intros HD Hex. unfold binary_round_aux.
  destruct (shr_fexp_small (Z.pos mx) ex loc_Exact 200 ltac:(lia) HD) as [[Hm1 Hd1] He1].
  destruct (shr_fexp 53 1024 (Z.pos mx) ex loc_Exact) as [mrs' e'].
  cbn [fst snd] in Hm1, Hd1, He1.
  destruct (round_nearest_even_small (shr_m mrs') (loc_of_shr_record mrs') 200 Hm1 Hd1)
    as [Hm2 Hd2].
  destruct (shr_fexp_small (round_nearest_even (shr_m mrs') (loc_of_shr_record mrs')) e'
                           loc_Exact 201 Hm2 Hd2) as [[Hm3 Hd3] He3].
  destruct (shr_fexp 53 1024 (round_nearest_even (shr_m mrs') (loc_of_shr_record mrs')) e'
                     loc_Exact) as [mrs'' e''].
  cbn [fst snd] in Hm3, Hd3, He3.
  unfold fexp, emin in He1, He3. cbn [Zdigits2] in He1.
  destruct (shr_m mrs'') as [|m|m]; [exact I| |lia].
  destruct (e'' <=? 1024 - 53) eqn:Hle; [exact I|].
  apply Z.leb_gt in Hle. lia.
Qed.

(** [int(a / 512)] is defined for every product of two 64-bit counts:
    the quotient is far below the largest float. *)
Lemma int_truediv_512_total (a : Z) :
  0 <= a < 2 ^ 128 -> exists n : Z, int_truediv_512 a = Some n.
Proof.
  intros [Ha Hb].
  assert (Hfin : finite_or_zero (binary_normalize 53 1024 a (- 9) false)).
  { destruct a as [|m|m]; [exact I| |lia].
    cbn [binary_normalize]. unfold binary_round.
    pose proof (digits2_pos_bound m 128 ltac:(lia) Hb) as HD.
    unfold shl_align.
    destruct (fexp 53 1024 (Z.pos (digits2_pos m) + - 9) - - 9) as [|d|d] eqn:Hn.
    - apply binary_round_aux_finite; lia.
    - apply binary_round_aux_finite; lia.
    - unfold fexp, emin in *. apply binary_round_aux_finite.
      + rewrite digits2_pos_shift. lia.
      + lia. }
  unfold int_truediv_512, truediv_pow2. change (Z.opp 9) with (-9).
  destruct (binary_normalize 53 1024 a (- 9) false) as [s|s| |s m e]; cbn in Hfin;
    try contradiction; cbn [int_of_float]; eexists; reflexivity.
Qed.

Example int_truediv_512_examples :
  int_truediv_512 (1000 * 512) = Some 1000
  /\ int_truediv_512 (1000 * 512 + 511) = Some 1000
  /\ int_truediv_512 0 = Some 0
  /\ int_truediv_512 ((2 ^ 53 + 1) * 512) = Some 9007199254740992.
Proof. vm_compute. repeat split. Qed.

Lemma iter_xO_value (k m : positive) : Z.pos (Pos.iter xO m k) = Z.pos m * 2 ^ Z.pos k.
Proof.
  induction k as [|k IH] using Pos.peano_ind.
  - cbn. lia.
  - rewrite Pos.iter_succ, Pos2Z.inj_succ, Z.pow_succ_r by lia.
    rewrite Pos2Z.inj_xO, IH. lia.
Qed.

(** A mantissa of exactly 53 digits is not rounded. *)
Lemma binary_round_aux_canonical (mz : positive) (ez : Z) :
  Z.pos (digits2_pos mz) = 53 -> -1074 <= ez <= 971 ->
  binary_round_aux 53 1024 false (Z.pos mz) ez loc_Exact = S754_finite false mz ez.
Proof.
  intros HD He. unfold binary_round_aux, shr_fexp, shr, fexp, emin.
  cbn [Zdigits2 shr_record_of_loc]. rewrite HD.
  replace (Z.max (53 + ez - 53) (3 - 1024 - 53) - ez) with 0 by lia.
  cbn [shr_m loc_of_shr_record round_nearest_even Zdigits2 shr_record_of_loc]. rewrite HD.
  replace (Z.max (53 + ez - 53) (3 - 1024 - 53) - ez) with 0 by lia.
  cbn [shr_m]. destruct (ez <=? 1024 - 53) eqn:Hle; [reflexivity|].
  apply Z.leb_gt in Hle. lia.
Qed.

(** Below [2^53] the float quotient is exact and [int(a / 512)] is the
    integer quotient. *)
Lemma int_truediv_512_exact (a : Z) :
  0 <= a < 2 ^ 53 -> int_truediv_512 a = Some (a / 512).
Proof.
  intros [Ha Hb]. destruct a as [|m|m]; [reflexivity| |lia].
  unfold int_truediv_512, truediv_pow2. change (Z.opp 9) with (-9).
  cbn [binary_normalize]. unfold binary_round, shl_align, fexp, emin.
  pose proof (digits2_pos_bound m 53 ltac:(lia) Hb) as HD.
  assert (H1 : 1 <= Z.pos (digits2_pos m)) by lia.
  destruct (Z.max (Z.pos (digits2_pos m) + -9 - 53) (3 - 1024 - 53) - -9) as [|d|d] eqn:Hn.
  - assert (HD53 : Z.pos (digits2_pos m) = 53) by lia.
    rewrite binary_round_aux_canonical by lia.
    cbn [int_of_float]. reflexivity.
  - lia.
  - assert (Hd : Z.pos d = 53 - Z.pos (digits2_pos m)) by lia.
    rewrite binary_round_aux_canonical.
    + cbn [int_of_float].
      destruct (0 <=? Z.max (Z.pos (digits2_pos m) + -9 - 53) (3 - 1024 - 53)) eqn:Hs;
        [apply Z.leb_le in Hs; lia|].
      f_equal. rewrite iter_xO_value.
      replace (- Z.max (Z.pos (digits2_pos m) + -9 - 53) (3 - 1024 - 53))
        with (Z.pos d + 9) by lia.
      rewrite Z.pow_add_r by lia. rewrite Z.mul_comm.
      replace (2 ^ Z.pos d * 2 ^ 9) with (2 ^ Z.pos d * 512) by reflexivity.
      rewrite Z.div_mul_cancel_l; [reflexivity|lia|].
      apply Z.pow_nonzero; lia.
    + rewrite digits2_pos_shift. lia.
    + lia.
Qed.

(* ================================================================== *)
(** ** Path inspection ([_gather_path_info])                             *)
(* ================================================================== *)

(** On a mounted volume whose volume-info query exits zero with the
    device on its second line, the result has [is_disk=True], and the
    sector count is the integer quotient as long as the size in bytes is
    below [2^53]. *)
Lemma _gather_path_info_mounted :
  forall (w : World) (fuel : nat) (p : Path) (s : State)
         (info line field : string),
    w_ismount w p = true ->
    w_proc w (st_spawned s) ["caffeinate"; "-dimsu"; "diskutil"; "info"; p] = (0, info) ->
    nth_error (PyStr.splitlines info) 1 = Some line ->
    nth_error (PyStr.split_on ":" line) 1 = Some field ->
    0 <= fst (w_statvfs w p) * snd (w_statvfs w p) < 2 ^ 53 ->
    fst (_gather_path_info w (S fuel) p s)
    = Returned (mkPathDetails p true
                  (fst (w_statvfs w p) * snd (w_statvfs w p) / 512)
                  (PyStr.strip field) (w_stat_dev w p) info).
Proof.
  intros w fuel p s info line field Hmount Hproc Hline Hfield Hsize.
  cbn [_gather_path_info]. mrun. rewrite Hmount.
  destruct (w_statvfs w p) as [b fs]. cbn [fst snd] in Hsize. mrun.
  rewrite (int_truediv_512_exact _ Hsize). mrun.
  rewrite Hproc. mrun. cbn [Z.eqb]. rewrite Hline. mrun. rewrite Hfield. mrun.
  reflexivity.
Qed.

(** The example of the specification: 1000 blocks of 512 bytes are 1000
    sectors. *)
Example sectors_of_1000_blocks :
  forall fuel : nat,
    fst (_gather_path_info (session all_succeed) (S fuel) "/" initial_State)
    = Returned (mkPathDetails "/" true 1000 "/dev/disk1s1" 16777220
                  ("   Device Identifier:   disk1s1" ++ PyStr.nl
                   ++ "   Device Node:   /dev/disk1s1" ++ PyStr.nl)).
Proof. intros fuel. vm_compute. reflexivity. Qed.

(** Far beyond the sizes of volumes, at [2^53 + 1] blocks of 512 bytes,
    the float division of line 104 would round: the integer quotient is
    [2^53 + 1] = 9007199254740993, a number that binary64 does not have,
    and [int] of the rounded quotient is 9007199254740992. *)
Remark sectors_rounded_by_float_division :
  forall fuel : nat,
    let huge := mkSession 0 0 0 0 0 0 (2 ^ 53 + 1) 512 in
    (exists d : PathDetails,
        fst (_gather_path_info (session huge) (S fuel) "/" initial_State) = Returned d
        /\ is_disk d = true
        /\ disk_sectors d = 9007199254740992)
    /\ (2 ^ 53 + 1) * 512 / 512 = 9007199254740993.
Proof.
  intros fuel huge. subst huge. split; [eexists; vm_compute; repeat split|reflexivity].
Qed.

(** C8 as stated fails: on the mounted source whose volume-info query
    exits 1, the inspection returns [is_disk=False] and an empty device,
    but it has not walked to any ancestor: [_find_mount_point] is not
    entered and no second query is made. *)
Lemma failed_query_walks_no_ancestor :
  ~ (exists (d : PathDetails) (s' : State),
        query_fails_run = (Returned d, s')
        /\ is_disk d = false /\ disk_device d = ""
        /\ ancestor_walked (st_events s') = true).
Proof.
  intros (d & s' & Hrun & _ & _ & Hwalk).
  assert (Hev : ancestor_walked (st_events (snd query_fails_run)) = false)
    by (vm_compute; reflexivity).
  rewrite Hrun in Hev. cbn [snd] in Hev. congruence.
Qed.

(** C8, amended.  On a mount-boundary path whose volume-info query exits
    nonzero, [_gather_path_info] returns: the result has [is_disk=False],
    an empty device identifier, the output of the failed query as
    [disk_info] and the sector count of the path; the only actions are
    the mount test, the statistics, the one query and the [stat], so no
    ancestor is walked. *)
Theorem failed_volume_query_is_not_fatal :
  forall (w : World) (fuel : nat) (p : Path) (s : State) (code : Z) (info : string),
    w_ismount w p = true ->
    w_proc w (st_spawned s) ["caffeinate"; "-dimsu"; "diskutil"; "info"; p] = (code, info) ->
    code <> 0 ->
    0 <= fst (w_statvfs w p) < 2 ^ 64 ->
    0 <= snd (w_statvfs w p) < 2 ^ 64 ->
    exists sectors : Z,
      int_truediv_512 (fst (w_statvfs w p) * snd (w_statvfs w p)) = Some sectors
      /\ _gather_path_info w (S fuel) p s
         = (Returned (mkPathDetails p false sectors "" (w_stat_dev w p) info),
            mkState (st_clock s) (S (st_spawned s))
                    (st_events s
                     ++ [EvOs "ismount" p; EvOs "statvfs" p;
                         EvSpawn ["caffeinate"; "-dimsu"; "diskutil"; "info"; p];
                         EvOs "stat" p])%list
                    (st_report s) (self_temporary_volume s) (self_output_report s))
      /\ ancestor_walked [EvOs "ismount" p; EvOs "statvfs" p;
                          EvSpawn ["caffeinate"; "-dimsu"; "diskutil"; "info"; p];
                          EvOs "stat" p] = false.
Proof.
  intros w fuel p s code info Hmount Hproc Hcode Hb Hs.
  destruct (int_truediv_512_total (fst (w_statvfs w p) * snd (w_statvfs w p)))
    as [sectors Hsec].
  { change (2 ^ 128) with (2 ^ 64 * 2 ^ 64). nia. }
  exists sectors. split; [exact Hsec|]. split; [|reflexivity].
  cbn [_gather_path_info]. mrun. rewrite Hmount.
  destruct (w_statvfs w p) as [b fs]. cbn [fst snd] in Hsec. mrun.
  rewrite Hsec. mrun. rewrite Hproc. mrun.
  destruct (code =? 0) eqn:Hz; [apply Z.eqb_eq in Hz; contradiction|].
  mrun. rewrite <- !app_assoc. reflexivity.
Qed.

Lemma failed_volume_query_is_not_fatal_witness :
  exists sectors : Z,
    int_truediv_512 (1000 * 512) = Some sectors
    /\ _gather_path_info (session (mkSession 1 0 0 0 0 0 1000 512)) 1 "/" initial_State
       = (Returned (mkPathDetails "/" false sectors "" 16777220
                      ("   Device Identifier:   disk1s1" ++ PyStr.nl
                       ++ "   Device Node:   /dev/disk1s1" ++ PyStr.nl)),
          mkState 0 1
                  [EvOs "ismount" "/"; EvOs "statvfs" "/";
                   EvSpawn ["caffeinate"; "-dimsu"; "diskutil"; "info"; "/"];
                   EvOs "stat" "/"]
                  None None None)
    /\ ancestor_walked [EvOs "ismount" "/"; EvOs "statvfs" "/";
                        EvSpawn ["caffeinate"; "-dimsu"; "diskutil"; "info"; "/"];
                        EvOs "stat" "/"] = false.
Proof.
  apply (failed_volume_query_is_not_fatal
           (session (mkSession 1 0 0 0 0 0 1000 512)) 0 "/" initial_State 1
           ("   Device Identifier:   disk1s1" ++ PyStr.nl
            ++ "   Device Node:   /dev/disk1s1" ++ PyStr.nl)).
  - reflexivity.
  - reflexivity.
  - discriminate.
  - cbn. lia.
  - cbn. lia.
Defined.

(** A volume-info query that exits zero with a single line makes the
    inspection raise: the second line is indexed unguarded. *)
Example short_query_output_raises :
  fst (_gather_path_info
         (mkWorld (fun k => Z.of_nat k) (fun _ _ => (0, "Device Identifier: disk1"))
                  (fun _ => true) (fun p => p) (fun _ => (1000, 512)) (fun _ => 1)
                  (fun _ => 0) (fun _ => []))
         1 "/" initial_State)
  = Raised IndexError.
Proof. vm_compute. reflexivity. Qed.

(* ================================================================== *)
(** ** What a computation leaves alone                                   *)
(* ================================================================== *)

Section Frames.

Context {A B : Type}.

Lemma appends_ret (a : A) : appends (ret a).
Proof. intros s. exists []. simpl. rewrite app_nil_r. reflexivity. Qed.

Lemma appends_raise (e : Exn) : appends (@raise A e).
Proof. intros s. exists []. simpl. rewrite app_nil_r. reflexivity. Qed.

Lemma appends_out_of_fuel : appends (@out_of_fuel A).
Proof. intros s. exists []. simpl. rewrite app_nil_r. reflexivity. Qed.

Lemma appends_bind (m : M A) (k : A -> M B) :
  appends m -> (forall a, appends (k a)) -> appends (bind m k).
Proof.
  intros Hm Hk s. unfold bind. destruct (Hm s) as [e1 H1].
  destruct (m s) as [[a|e|] s1]; simpl in *.
  - destruct (Hk a s1) as [e2 H2]. exists (e1 ++ e2)%list.
    rewrite H2, H1, app_assoc. reflexivity.
  - exists e1. exact H1.
  - exists e1. exact H1.
Qed.

Lemma appends_try (m : M A) (h : list string -> Z -> M A) :
  appends m -> (forall argv code, appends (h argv code)) ->
  appends (try_CalledProcessError m h).
Proof.
  intros Hm Hh s. unfold try_CalledProcessError. destruct (Hm s) as [e1 H1].
  destruct (m s) as [[a|e|] s1]; simpl in *; try (exists e1; exact H1).
  destruct e; simpl; try (exists e1; exact H1).
  destruct (Hh argv code s1) as [e2 H2]. exists (e1 ++ e2)%list.
  rewrite H2, H1, app_assoc. reflexivity.
Qed.

Lemma keeps_report_ret (a : A) : keeps_report (ret a).
Proof. intros s. split; reflexivity. Qed.

Lemma keeps_report_raise (e : Exn) : keeps_report (@raise A e).
Proof. intros s. split; reflexivity. Qed.

Lemma keeps_report_out_of_fuel : keeps_report (@out_of_fuel A).
Proof. intros s. split; reflexivity. Qed.

Lemma keeps_report_bind (m : M A) (k : A -> M B) :
  keeps_report m -> (forall a, keeps_report (k a)) -> keeps_report (bind m k).
Proof.
  intros Hm Hk s. unfold bind. specialize (Hm s).
  destruct (m s) as [[a|e|] s1]; simpl in *; try exact Hm.
  destruct (Hk a s1) as [-> ->]. exact Hm.
Qed.

Lemma keeps_report_try (m : M A) (h : list string -> Z -> M A) :
  keeps_report m -> (forall argv code, keeps_report (h argv code)) ->
  keeps_report (try_CalledProcessError m h).
Proof.
  intros Hm Hh s. unfold try_CalledProcessError. specialize (Hm s).
  destruct (m s) as [[a|e|] s1]; simpl in *; try exact Hm.
  destruct e; simpl; try exact Hm.
  destruct (Hh argv code s1) as [-> ->]. exact Hm.
Qed.

End Frames.

Lemma appends_emit (e : Event) : appends (emit e).
Proof. intros s. exists [e]. reflexivity. Qed.

Lemma keeps_report_emit (e : Event) : keeps_report (emit e).
Proof. intros s. split; reflexivity. Qed.

Lemma appends_spawn (w : World) (argv : list string) : appends (spawn w argv).
Proof. intros s. exists [EvSpawn argv]. reflexivity. Qed.

Lemma keeps_report_spawn (w : World) (argv : list string) : keeps_report (spawn w argv).
Proof. intros s. split; reflexivity. Qed.

Lemma appends_now (w : World) : appends (now w).
Proof. intros s. exists []. simpl. rewrite app_nil_r. reflexivity. Qed.

Lemma appends_get_report : appends get_report.
Proof.
  intros s. exists []. unfold get_report. rewrite app_nil_r.
  destruct (st_report s); reflexivity.
Qed.

Lemma appends_put_report (r : Report) : appends (put_report r).
Proof. intros s. exists []. simpl. rewrite app_nil_r. reflexivity. Qed.

Lemma appends_set_self_output_report (p : Path) : appends (set_self_output_report p).
Proof. intros s. exists []. simpl. rewrite app_nil_r. reflexivity. Qed.

Lemma appends_index {A} (l : list A) (i : nat) : appends (index l i).
Proof. unfold index. destruct (nth_error l i); [apply appends_ret|apply appends_raise]. Qed.

Lemma keeps_report_index {A} (l : list A) (i : nat) : keeps_report (index l i).
Proof. unfold index. destruct (nth_error l i); intros s; split; reflexivity. Qed.

Lemma appends_attr {A} (what : string) (o : option A) : appends (attr what o).
Proof. destruct o; [apply appends_ret|apply appends_raise]. Qed.

Lemma appends_or_OverflowError {A} (o : option A) : appends (or_OverflowError o).
Proof. destruct o; [apply appends_ret|apply appends_raise]. Qed.

Lemma keeps_report_or_OverflowError {A} (o : option A) : keeps_report (or_OverflowError o).
Proof. destruct o; intros s; split; reflexivity. Qed.

Create HintDb frame.
#[local] Hint Resolve appends_emit appends_spawn appends_now appends_get_report
  appends_put_report appends_set_self_output_report appends_index appends_attr
  appends_or_OverflowError keeps_report_emit keeps_report_spawn keeps_report_index
  keeps_report_or_OverflowError : frame.
#[local] Hint Resolve appends_ret appends_raise appends_out_of_fuel
  keeps_report_ret keeps_report_raise keeps_report_out_of_fuel : frame.

(** Walks down a computation: binds and handlers are split, branches are
    taken apart, leaves are closed from the hint database or from an
    induction hypothesis. *)
Ltac frame_step :=
  match goal with
  | |- appends (bind _ _) => apply appends_bind; [|intros ?]
  | |- keeps_report (bind _ _) => apply keeps_report_bind; [|intros ?]
  | |- appends (try_CalledProcessError _ _) => apply appends_try; [|intros ? ?]
  | |- keeps_report (try_CalledProcessError _ _) => apply keeps_report_try; [|intros ? ?]
  | |- appends (let '(_, _) := ?x in _) => destruct x
  | |- keeps_report (let '(_, _) := ?x in _) => destruct x
  | |- appends (if ?b then _ else _) => destruct b
  | |- keeps_report (if ?b then _ else _) => destruct b
  | |- appends (match ?x with _ => _ end) => destruct x
  | |- keeps_report (match ?x with _ => _ end) => destruct x
  | |- _ => solve [auto with frame]
  end.

Ltac frame :=
  unfold print, print_noeol, sleep, ismount, realpath, statvfs, stat_st_dev,
    stat_st_size, _run_silent, _run_process, run_checked, modify_report, floordiv;
  repeat frame_step.

Lemma find_mount_loop_frame (w : World) (fuel : nat) :
  forall p, appends (find_mount_loop w fuel p) /\ keeps_report (find_mount_loop w fuel p).
Proof.
  induction fuel as [|fuel IH]; intros p; cbn [find_mount_loop]; split; frame;
    apply IH.
Qed.

Lemma _gather_path_info_frame (w : World) (fuel : nat) :
  forall p, appends (_gather_path_info w fuel p)
            /\ keeps_report (_gather_path_info w fuel p).
Proof.
  induction fuel as [|fuel IH]; intros p; cbn [_gather_path_info]; split;
    unfold _find_mount_point; frame;
    try apply find_mount_loop_frame; apply IH.
Qed.

Lemma _run_status_frame (w : World) (arguments : list string) (tee : option Path) :
  appends (_run_status w arguments tee) /\ keeps_report (_run_status w arguments tee).
Proof. unfold _run_status. split; frame. Qed.

Lemma _prompt_for_image_frame (w : World) :
  appends (_prompt_for_image w) /\ keeps_report (_prompt_for_image w).
Proof. unfold _prompt_for_image. split; frame. Qed.

Lemma _prompt_for_destination_frame (w : World) :
  appends (_prompt_for_destination w) /\ keeps_report (_prompt_for_destination w).
Proof. unfold _prompt_for_destination. split; frame. Qed.

Lemma _mount_snapshot_image_frame (w : World) (image_path : string) :
  appends (_mount_snapshot_image w image_path)
  /\ keeps_report (_mount_snapshot_image w image_path).
Proof. unfold _mount_snapshot_image. split; frame. Qed.

Lemma _detach_mounted_image_frame (w : World) (mount_point : string) :
  appends (_detach_mounted_image w mount_point)
  /\ keeps_report (_detach_mounted_image w mount_point).
Proof.
  unfold _detach_mounted_image, _get_disk_device_from_mount.
  split; frame; apply _run_status_frame.
Qed.

Lemma _copy_with_ditto_frame (w : World) (src dst : string) :
  appends (_copy_with_ditto w src dst) /\ keeps_report (_copy_with_ditto w src dst).
Proof. unfold _copy_with_ditto. split; frame; apply _run_status_frame. Qed.




Lemma bind_Returned_inv {A B} (m : M A) (k : A -> M B) (s : State) (b : B) (s' : State) :
  bind m k s = (Returned b, s') ->
  exists a s1, m s = (Returned a, s1) /\ k a s1 = (Returned b, s').
Proof.
  unfold bind. destruct (m s) as [[a|e|] s1]; intros H; try discriminate.
  exists a, s1. split; [reflexivity|exact H].
Qed.

(** [step H as a s1 Hm]: the computation of [H] returned, so its first
    action returned some [a] in a state [s1]. *)
Tactic Notation "step" hyp(H) "as" ident(a) ident(s1) ident(Hm) :=
  apply bind_Returned_inv in H; destruct H as (a & s1 & Hm & H).

(** An action that only logs or reads the clock: its result and state
    are read off by computation. *)
Ltac primitive Hm :=
  cbv [now print print_noeol emit put_report ret] in Hm;
  cbn [st_clock st_spawned st_events st_report self_temporary_volume
       self_output_report] in Hm;
  inversion Hm; subst; clear Hm.

(** [report.field = v] on a state whose report is known. *)
Ltac assign Hm Hrep :=
  cbv [modify_report get_report put_report bind] in Hm;
  cbn [st_clock st_spawned st_events st_report self_temporary_volume
       self_output_report] in Hm;
  try rewrite Hrep in Hm;
  inversion Hm; subst; clear Hm.

(** [return report] on a state whose report is known. *)
Ltac returns H Hrep :=
  cbv [get_report] in H;
  cbn [st_clock st_spawned st_events st_report self_temporary_volume
       self_output_report] in H;
  try rewrite Hrep in H;
  inversion H; subst; clear H.

(** The method call of [Hcall] left the report as it was. *)
Ltac kept Hcall frame_lemma R :=
  match type of Hcall with
  | _ ?s = _ =>
      pose proof (proj1 (proj2 frame_lemma s)) as R;
      rewrite Hcall in R; cbn [snd st_report] in R
  end.

(* ================================================================== *)
(** ** The sector count                                                  *)
(* ================================================================== *)





Example int_truediv_512_pow2_examples :
  int_truediv_512 ((2 ^ 32 - 1) * 2 ^ 30) = Some ((2 ^ 32 - 1) * 2 ^ 30 / 512)
  /\ int_truediv_512 ((2 ^ 53 - 1) * 2 ^ 3) = Some ((2 ^ 53 - 1) * 2 ^ 3 / 512).
Proof. vm_compute. split; reflexivity. Qed.





(** The same on a volume of [2^32 - 1] blocks of 1 MiB, a size beyond
    [2^53] bytes. *)
Example sectors_of_a_wide_volume :
  fst (_gather_path_info (session (mkSession 0 0 0 0 0 0 (2 ^ 32 - 1) (2 ^ 20)))
                         1 "/" initial_State)
  = Returned (mkPathDetails "/" true ((2 ^ 32 - 1) * 2 ^ 20 / 512) "/dev/disk1s1" 16777220
                ("   Device Identifier:   disk1s1" ++ PyStr.nl
                 ++ "   Device Node:   /dev/disk1s1" ++ PyStr.nl)).
Proof. vm_compute. reflexivity. Qed.



(* ================================================================== *)
(** ** The run in which every step succeeds                              *)
(* ================================================================== *)

(** C1, at the session in which every command exits zero and both
    choosers answer.  [execute] does not return a [Report]: the copy
    succeeded, so [_write_report] is called, and it reads
    [report.result.path] while [result] is still [None]. *)
Theorem execute_raises_after_successful_copy :
  forall fuel : nat,
    fst (execute (session all_succeed) (S fuel) case1 initial_State)
    = Raised (AttributeError "path").
Proof. intros fuel. vm_compute. reflexivity. Qed.

(** C2, at the same session.  The copy exits zero and the report object
    gets the destination directory, the end time and [success=True]; but
    the report file is only created empty, no line of it is written, and
    the caller gets an exception instead of the [Report], whether the
    detach that follows the copy succeeds or fails. *)
Theorem successful_copy_writes_no_report :
  forall fuel : nat,
    let run := execute (session all_succeed) (S fuel) case1 initial_State in
    let run' := execute (session (mkSession 0 0 0 0 0 1 1000 512)) (S fuel) case1
                        initial_State in
    fst run = Raised (AttributeError "path")
    /\ output_files (report_of (snd run)) = ["/Users/x/out"]
    /\ end_time (report_of (snd run)) = Some 1001
    /\ success (report_of (snd run)) = true
    /\ opened_for_writing (report_path case1) (st_events (snd run)) = true
    /\ writes_to (report_path case1) (st_events (snd run)) = []
    /\ fst run' = Raised (AttributeError "path")
    /\ success (report_of (snd run')) = true.
Proof. intros fuel run run'. subst run run'. vm_compute. repeat split. Qed.

(** C3, at the same session.  When the exception leaves [execute] the
    report object has [success=True] and [result=None], and no file was
    opened for reading: the flag is set without any artifact having been
    hashed. *)
Theorem success_set_without_hashing :
  forall fuel : nat,
    let run := execute (session all_succeed) (S fuel) case1 initial_State in
    success (report_of (snd run)) = true
    /\ result (report_of (snd run)) = None
    /\ opens_for_read (st_events (snd run)) = 0%nat.
Proof. intros fuel run. subst run. vm_compute. repeat split. Qed.

(** When the copy exits nonzero the run returns: the end time is
    stamped, [success] stays [False], nothing is appended to the output
    files and the report file is not touched; a failing detach changes
    none of this. *)
Example failed_copy_returns_report :
  forall fuel : nat,
    let run := execute (session (mkSession 0 0 0 0 1 0 1000 512)) (S fuel) case1
                       initial_State in
    let run' := execute (session (mkSession 0 0 0 0 1 1 1000 512)) (S fuel) case1
                        initial_State in
    (exists r, fst run = Returned r /\ fst run' = Returned r
               /\ success r = false /\ end_time r = Some 1001
               /\ output_files r = [] /\ result r = None)
    /\ opened_for_writing (report_path case1) (st_events (snd run)) = false
    /\ opened_for_writing (report_path case1) (st_events (snd run')) = false.
Proof.
  intros fuel run run'. subst run run'. split; [eexists|]; vm_compute; repeat split.
Qed.

(** [_write_report] cannot return on a report without a result. *)
Lemma _write_report_needs_result (s : State) (r : Report) (u : unit) (s' : State) :
  st_report s = Some r -> result r = None ->
  _write_report s <> (Returned u, s').
Proof.
  intros Hrep Hres. unfold _write_report. mrun. repeat (rewrite Hrep; mrun).
  destruct (path_details r); mrun; [|discriminate].
  rewrite Hres. mrun. discriminate.
Qed.

(** No run of [execute] returns a report with [success=True]: a report
    that is returned has [success=False], no result and no output file.
    The strategy never hashes, so after a successful copy
    [_write_report] raises. *)
Lemma execute_never_returns_success :
  forall (w : World) (fuel : nat) (params : Parameters) (r : Report) (s' : State),
    execute w fuel params initial_State = (Returned r, s') ->
    success r = false /\ result r = None /\ output_files r = [].
Proof.
  intros w fuel params r s' H. unfold execute, initial_State in H.
  step H as start s1 H1. primitive H1.
  step H as u1 s2 H2. primitive H2.
  step H as hw s3 H3.
  unfold _gather_hardware_info, _run_silent, caffeinate, spawn, bind, ret in H3.
  cbn [st_clock st_spawned st_events st_report self_temporary_volume
       self_output_report] in H3.
  destruct (w_proc w 0 ["caffeinate"; "-dimsu"; "system_profiler"; "SPHardwareDataType"])
    as [hw_code hw_text] eqn:Hhw.
  inversion H3; subst; clear H3.
  step H as u2 s4 H4. assign H4 I.
  step H as d s5 H5.
  kept H5 (_gather_path_info_frame w fuel (source params)) R5.
  step H as u3 s6 H6. assign H6 R5.
  step H as u4 s7 H7. primitive H7.
  step H as image s8 H8.
  kept H8 (_prompt_for_image_frame w) R8.
  destruct (negb (opt_truthy image)).
  { step H as u5 s9 H9. primitive H9. returns H R8. repeat split. }
  step H as mounted s9 H9.
  kept H9 (_mount_snapshot_image_frame w (str_of image)) R9. rewrite R8 in R9.
  destruct (negb (opt_truthy mounted)).
  { step H as u6 s10 H10. primitive H10. returns H R9. repeat split. }
  step H as u7 s10 H10. primitive H10.
  step H as dest s11 H11.
  kept H11 (_prompt_for_destination_frame w) R11. rewrite R9 in R11.
  destruct (negb (opt_truthy dest)).
  { step H as u8 s12 H12. primitive H12.
    step H as u9 s13 H13.
    kept H13 (_detach_mounted_image_frame w (str_of mounted)) R13. rewrite R11 in R13.
    returns H R13. repeat split. }
  step H as copied s12 H12.
  kept H12 (_copy_with_ditto_frame w (str_of mounted) (str_of dest)) R12.
  rewrite R11 in R12.
  step H as detached s13 H13.
  kept H13 (_detach_mounted_image_frame w (str_of mounted)) R13. rewrite R12 in R13.
  step H as u10 s14 H14.
  assert (R14 : st_report s14 = st_report s13).
  { destruct (negb detached); primitive H14; reflexivity. }
  rewrite R13 in R14. clear H14.
  step H as u11 s15 H15. assign H15 R14.
  step H as finish s16 H16. primitive H16.
  step H as u12 s17 H17. assign H17 I.
  step H as u13 s18 H18.
  destruct copied.
  - step H18 as u14 s19 H19. assign H19 I.
    exfalso. eapply _write_report_needs_result; [| |exact H18]; reflexivity.
  - primitive H18. returns H I. repeat split.
Qed.

(** Cancellation at the image chooser: once the path inspection has
    returned, a chooser that exits nonzero ends the run with the report
    as it stands, and no command is spawned after the chooser (no attach,
    no copy, no detach). *)
Lemma execute_image_cancelled :
  forall (w : World) (fuel : nat) (params : Parameters) (d : PathDetails) (s1 : State)
         (code : Z) (out : string),
    _gather_path_info w fuel (source params) (inspecting w params) = (Returned d, s1) ->
    w_proc w (st_spawned s1) ["osascript"; "-e"; image_script] = (code, out) ->
    code <> 0 ->
    exists s' : State,
      execute w fuel params initial_State
      = (Returned (mkReport params SnapshotMountMethod (Some (w_now w 0)) None (Some d)
                            (hardware_of w) false [] None), s')
      /\ spawns_of (st_events s')
         = (spawns_of (st_events s1) ++ [["osascript"; "-e"; image_script]])%list.
Proof.
  intros w fuel params d s1 code out Hgather Hproc Hcode.
  pose proof (proj2 (_gather_path_info_frame w fuel (source params)) (inspecting w params))
    as [Hrep _].
  rewrite Hgather in Hrep. cbn [snd inspecting st_report] in Hrep.
  unfold inspecting, hardware_of in *.
  unfold execute, _gather_hardware_info, _prompt_for_image, initial_State. mrun.
  destruct (w_proc w 0 ["caffeinate"; "-dimsu"; "system_profiler"; "SPHardwareDataType"])
    as [hw_code hw] eqn:Hhw.
  cbn [snd] in *. mrun. cbn [app]. rewrite Hgather. mrun. rewrite Hrep. mrun.
  rewrite Hproc. mrun.
  destruct (code =? 0) eqn:Hz; [apply Z.eqb_eq in Hz; contradiction|].
  mrun. cbn [opt_truthy]. mrun.
  eexists. split; [reflexivity|].
  cbn [st_events]. rewrite !spawns_of_app. cbn. rewrite !app_nil_r. reflexivity.
Qed.


(** Unfolds the monad and the methods as [mrun] does, with the setters
    of the image attributes. *)
Ltac xrun :=
  repeat (progress (
    cbv beta iota delta
      [bind ret raise out_of_fuel emit print print_noeol index attr
       get_report put_report modify_report set_self_output_report
       set_self_temporary_volume
       get_self_temporary_volume try_CalledProcessError or_OverflowError
       floordiv now spawn sleep ismount realpath statvfs stat_st_dev
       stat_st_size _run_silent _run_process run_checked caffeinate
       py_truthy negb];
    cbn [st_clock st_spawned st_events st_report self_temporary_volume
         self_output_report fst snd])).

(* ================================================================== *)
(** ** The temporary image                                               *)
(* ================================================================== *)

Lemma split_on_head (sep : ascii) (s : string) :
  exists first rest, PyStr.split_on sep s = first :: rest.
Proof.
  induction s as [|c s IH]; cbn [PyStr.split_on]; [eauto|].
  destruct (Ascii.eqb c sep); [eauto|].
  destruct IH as (first & rest & ->). eauto.
Qed.

(** X1.  When [hdiutil create] exits with a positive status,
    [_create_temporary_image] returns [False] at once: the attach is not
    run, [self.temporary_volume] is [None], and the report, its output
    files included, is as before. *)
Theorem create_temporary_image_create_fails :
  forall (w : World) (a : ImageAttrs) (s : State) (r : Report) (d : PathDetails)
         (code : Z) (out : string),
    st_report s = Some r ->
    path_details r = Some d ->
    w_proc w (st_spawned s)
           ["caffeinate"; "-dimsu"; "hdiutil"; "create"; "-sectors";
            PyStr.of_Z (disk_sectors d); "-volname"; image_name (parameters r);
            sparseimage_path (parameters r)] = (code, out) ->
    0 < code ->
    exists s' : State,
      _create_temporary_image w a s
      = (Returned (false, mkImageAttrs (Some (sparseimage_path (parameters r)))
                                       (self_output_path a)), s')
      /\ st_report s' = Some r
      /\ self_temporary_volume s' = None
      /\ spawns_of (st_events s')
         = (spawns_of (st_events s)
            ++ [["caffeinate"; "-dimsu"; "hdiutil"; "create"; "-sectors";
                 PyStr.of_Z (disk_sectors d); "-volname"; image_name (parameters r);
                 sparseimage_path (parameters r)]])%list.
Proof.
  intros w a s r d code out Hrep Hdet Hproc Hcode.
  unfold _create_temporary_image, sparseimage_path in *. xrun. rewrite Hrep. xrun.
  rewrite Hdet. xrun. rewrite Hproc. xrun.
  destruct (0 <? code) eqn:Hpos; [|apply Z.ltb_ge in Hpos; lia].
  xrun. eexists. split; [reflexivity|]. cbn [st_report self_temporary_volume st_events].
  repeat split; [exact Hrep|].
  rewrite !spawns_of_app. cbn. rewrite ?app_nil_r. reflexivity.
Qed.

Lemma create_temporary_image_create_fails_witness :
  exists s' : State,
    _create_temporary_image always_failing no_image
      (with_report (set_path_details (mkPathDetails "/" true 1000 "" 0 "")
                      (new_Report case1 SnapshotMountMethod 0)))
    = (Returned (false, mkImageAttrs
                          (Some "/Volumes/Fuji/FujiAcquisition/FujiAcquisition.sparseimage")
                          None), s')
    /\ st_report s'
       = Some (set_path_details (mkPathDetails "/" true 1000 "" 0 "")
                 (new_Report case1 SnapshotMountMethod 0))
    /\ self_temporary_volume s' = None
    /\ spawns_of (st_events s')
       = [["caffeinate"; "-dimsu"; "hdiutil"; "create"; "-sectors"; "1000"; "-volname";
           "FujiAcquisition";
           "/Volumes/Fuji/FujiAcquisition/FujiAcquisition.sparseimage"]].
Proof.
  apply (create_temporary_image_create_fails always_failing no_image
           (with_report (set_path_details (mkPathDetails "/" true 1000 "" 0 "")
                           (new_Report case1 SnapshotMountMethod 0)))
           (set_path_details (mkPathDetails "/" true 1000 "" 0 "")
              (new_Report case1 SnapshotMountMethod 0))
           (mkPathDetails "/" true 1000 "" 0 "") 1 busy).
  - reflexivity.
  - reflexivity.
  - reflexivity.
  - lia.
Defined.

(** X2.  When [hdiutil create] exits with a status that is not positive
    (zero, or negative because a signal ended it), the attach is run and
    decides: the result is [True] exactly when the attach exits zero, the
    image path is appended to the output files exactly then, and
    [self.temporary_volume] is the first space-delimited token of the
    stripped attach output in either case. *)
Theorem create_temporary_image_attach_decides :
  forall (w : World) (a : ImageAttrs) (s : State) (r : Report) (d : PathDetails)
         (code : Z) (out : string) (code' : Z) (out' : string),
    st_report s = Some r ->
    path_details r = Some d ->
    w_proc w (st_spawned s)
           ["caffeinate"; "-dimsu"; "hdiutil"; "create"; "-sectors";
            PyStr.of_Z (disk_sectors d); "-volname"; image_name (parameters r);
            sparseimage_path (parameters r)] = (code, out) ->
    code <= 0 ->
    w_proc w (S (st_spawned s))
           ["caffeinate"; "-dimsu"; "hdiutil"; "attach"; sparseimage_path (parameters r)]
    = (code', out') ->
    exists s' : State,
      _create_temporary_image w a s
      = (Returned (code' =? 0, mkImageAttrs (Some (sparseimage_path (parameters r)))
                                           (self_output_path a)), s')
      /\ st_report s'
         = Some (if code' =? 0
                 then append_output_file (sparseimage_path (parameters r)) r
                 else r)
      /\ self_temporary_volume s'
         = Some (hd "" (PyStr.split_on " " (PyStr.strip out'))).
Proof.
  intros w a s r d code out code' out' Hrep Hdet Hproc Hcode Hproc'.
  unfold _create_temporary_image, sparseimage_path in *. xrun. rewrite Hrep. xrun.
  rewrite Hdet. xrun. rewrite Hproc. xrun.
  destruct (0 <? code) eqn:Hpos; [apply Z.ltb_lt in Hpos; lia|].
  xrun. rewrite Hproc'. xrun.
  destruct (split_on_head " " (PyStr.strip out')) as (first & rest & Hsplit).
  rewrite Hsplit. cbn [nth_error hd]. xrun.
  destruct (code' =? 0); xrun; try rewrite Hrep; xrun;
    eexists; (split; [reflexivity|]); cbn [st_report self_temporary_volume];
    try rewrite Hrep; split; reflexivity.
Qed.

Lemma create_temporary_image_attach_decides_witness :
  exists s' : State,
    _create_temporary_image (image_world (-9) 0 0) no_image (with_report inspected_case1)
    = (Returned (true, mkImageAttrs
                         (Some "/Volumes/Fuji/FujiAcquisition/FujiAcquisition.sparseimage")
                         None), s')
    /\ st_report s'
       = Some (append_output_file
                 "/Volumes/Fuji/FujiAcquisition/FujiAcquisition.sparseimage"
                 inspected_case1)
    /\ self_temporary_volume s' = Some "/dev/disk5".
Proof.
  apply (create_temporary_image_attach_decides (image_world (-9) 0 0) no_image
           (with_report inspected_case1) inspected_case1
           (mkPathDetails "/" true 1000 "/dev/disk1s1" 16777220 "") (-9) "created" 0
           ("/dev/disk5 " ++ tab ++ "GUID_partition_scheme" ++ PyStr.nl)).
  - reflexivity.
  - reflexivity.
  - reflexivity.
  - lia.
  - reflexivity.
Defined.

(** X3.  Creating the temporary image and then converting it, both with
    success, leaves the output files of the report extended by the image
    file and then the compressed image, in this order; the conversion
    reads the image file that the creation made. *)
Theorem temporary_image_then_dmg :
  forall (w : World) (a : ImageAttrs) (s : State) (r : Report) (d : PathDetails)
         (code : Z) (out out' out'' : string),
    st_report s = Some r ->
    path_details r = Some d ->
    w_proc w (st_spawned s)
           ["caffeinate"; "-dimsu"; "hdiutil"; "create"; "-sectors";
            PyStr.of_Z (disk_sectors d); "-volname"; image_name (parameters r);
            sparseimage_path (parameters r)] = (code, out) ->
    code <= 0 ->
    w_proc w (S (st_spawned s))
           ["caffeinate"; "-dimsu"; "hdiutil"; "attach"; sparseimage_path (parameters r)]
    = (0, out') ->
    w_proc w (S (S (st_spawned s)))
           ["caffeinate"; "-dimsu"; "hdiutil"; "convert"; sparseimage_path (parameters r);
            "-format"; "UDZO"; "-o"; dmg_path (parameters r)] = (0, out'') ->
    exists (a1 : ImageAttrs) (s1 : State) (a2 : ImageAttrs) (s2 : State) (r2 : Report),
      _create_temporary_image w a s = (Returned (true, a1), s1)
      /\ _generate_dmg w a1 s1 = (Returned (true, a2), s2)
      /\ st_report s2 = Some r2
      /\ output_files r2
         = (output_files r
            ++ [sparseimage_path (parameters r); dmg_path (parameters r)])%list
      /\ a2 = mkImageAttrs (Some (sparseimage_path (parameters r)))
                           (Some (dmg_path (parameters r))).
Proof.
  intros w a s r d code out out' out'' Hrep Hdet Hproc Hcode Hproc' Hproc''.
  unfold _create_temporary_image, _generate_dmg, sparseimage_path, dmg_path in *.
  xrun. rewrite Hrep. xrun. rewrite Hdet. xrun. rewrite Hproc. xrun.
  destruct (0 <? code) eqn:Hpos; [apply Z.ltb_lt in Hpos; lia|].
  xrun. rewrite Hproc'. xrun.
  destruct (split_on_head " " (PyStr.strip out')) as (first & rest & Hsplit).
  rewrite Hsplit. cbn [nth_error Z.eqb]. xrun. rewrite Hrep. xrun.
  do 2 eexists. do 3 eexists. split; [reflexivity|].
  xrun. cbn [parameters append_output_file self_temporary_path str_of_opt_path].
  match goal with
  | |- context [w_proc w ?k ?argv] =>
      let Heq := fresh "Heq" in
      assert (Heq : w_proc w k argv = (0, out'')) by exact Hproc'';
      rewrite Heq
  end.
  xrun. cbn [Z.eqb]. xrun.
  split; [reflexivity|]. split; [reflexivity|].
  cbn [output_files append_output_file]. rewrite <- app_assoc. split; reflexivity.
Qed.

Lemma temporary_image_then_dmg_witness :
  exists (a1 : ImageAttrs) (s1 : State) (a2 : ImageAttrs) (s2 : State) (r2 : Report),
    _create_temporary_image (image_world 0 0 0) no_image (with_report inspected_case1)
    = (Returned (true, a1), s1)
    /\ _generate_dmg (image_world 0 0 0) a1 s1 = (Returned (true, a2), s2)
    /\ st_report s2 = Some r2
    /\ output_files r2
       = ["/Volumes/Fuji/FujiAcquisition/FujiAcquisition.sparseimage";
          "/Volumes/Fuji/FujiAcquisition/FujiAcquisition.dmg"]
    /\ a2 = mkImageAttrs (Some "/Volumes/Fuji/FujiAcquisition/FujiAcquisition.sparseimage")
                         (Some "/Volumes/Fuji/FujiAcquisition/FujiAcquisition.dmg").
Proof.
  apply (temporary_image_then_dmg (image_world 0 0 0) no_image
           (with_report inspected_case1) inspected_case1
           (mkPathDetails "/" true 1000 "/dev/disk1s1" 16777220 "") 0 "created"
           ("/dev/disk5 " ++ tab ++ "GUID_partition_scheme" ++ PyStr.nl) "").
  - reflexivity.
  - reflexivity.
  - reflexivity.
  - lia.
  - reflexivity.
  - reflexivity.
Defined.

(** X4.  [_generate_dmg] does not look whether a temporary image exists:
    when the conversion fails, whatever the reason, it returns [False]
    and the report is untouched; called before any image was created it
    asks [hdiutil] to convert the file named [None]. *)
Theorem generate_dmg_failure :
  forall (w : World) (a : ImageAttrs) (s : State) (r : Report) (code : Z) (out : string),
    st_report s = Some r ->
    w_proc w (st_spawned s)
           ["caffeinate"; "-dimsu"; "hdiutil"; "convert";
            str_of_opt_path (self_temporary_path a);
            "-format"; "UDZO"; "-o"; dmg_path (parameters r)] = (code, out) ->
    code <> 0 ->
    exists s' : State,
      _generate_dmg w a s
      = (Returned (false, mkImageAttrs (self_temporary_path a)
                                       (Some (dmg_path (parameters r)))), s')
      /\ st_report s' = Some r
      /\ spawns_of (st_events s')
         = (spawns_of (st_events s)
            ++ [["caffeinate"; "-dimsu"; "hdiutil"; "convert";
                 str_of_opt_path (self_temporary_path a);
                 "-format"; "UDZO"; "-o"; dmg_path (parameters r)]])%list.
Proof.
  intros w a s r code out Hrep Hproc Hcode.
  unfold _generate_dmg, dmg_path in *. xrun. rewrite Hrep. xrun.
  cbn [self_temporary_path]. rewrite Hproc. xrun.
  destruct (code =? 0) eqn:Hz; [apply Z.eqb_eq in Hz; contradiction|].
  xrun. eexists. split; [reflexivity|]. cbn [st_report st_events].
  split; [exact Hrep|]. rewrite !spawns_of_app. cbn. rewrite ?app_nil_r. reflexivity.
Qed.

Lemma generate_dmg_failure_witness :
  exists s' : State,
    _generate_dmg always_failing no_image (with_report inspected_case1)
    = (Returned (false, mkImageAttrs None
                          (Some "/Volumes/Fuji/FujiAcquisition/FujiAcquisition.dmg")), s')
    /\ st_report s' = Some inspected_case1
    /\ spawns_of (st_events s')
       = [["caffeinate"; "-dimsu"; "hdiutil"; "convert"; "None"; "-format"; "UDZO"; "-o";
           "/Volumes/Fuji/FujiAcquisition/FujiAcquisition.dmg"]].
Proof.
  apply (generate_dmg_failure always_failing no_image (with_report inspected_case1)
           inspected_case1 1 busy).
  - reflexivity.
  - reflexivity.
  - discriminate.
Defined.

(* ================================================================== *)
(** ** The report file ([_write_report])                                 *)
(* ================================================================== *)

Lemma writes_to_app (p : Path) (a b : list Event) :
  writes_to p (a ++ b)%list = (writes_to p a ++ writes_to p b)%list.
Proof.
  induction a as [|e a IH]; simpl; [reflexivity|].
  destruct e; simpl; try exact IH.
  destruct (String.eqb p p0); simpl; rewrite IH; reflexivity.
Qed.

Lemma opened_for_writing_app (p : Path) (a b : list Event) :
  opened_for_writing p (a ++ b)%list = opened_for_writing p a || opened_for_writing p b.
Proof. unfold opened_for_writing. apply existsb_app. Qed.

Lemma writes_to_line_writes (p : Path) (lines : list string) :
  writes_to p (line_writes p lines) = map (fun line => line ++ PyStr.nl) lines.
Proof.
  induction lines as [|l lines IH]; [reflexivity|].
  cbn [line_writes map writes_to]. rewrite String.eqb_refl. f_equal. exact IH.
Qed.

Lemma write_lines_run (p : Path) (lines : list string) :
  forall s : State,
    write_lines p lines s
    = (Returned tt,
       mkState (st_clock s) (st_spawned s) (st_events s ++ line_writes p lines)%list
               (st_report s) (self_temporary_volume s) (self_output_report s)).
Proof.
  induction lines as [|l lines IH]; intros s; cbn [write_lines line_writes map].
  - unfold ret. rewrite app_nil_r. destruct s; reflexivity.
  - xrun. rewrite IH. cbn [st_clock st_spawned st_events st_report
                           self_temporary_volume self_output_report].
    rewrite <- app_assoc. reflexivity.
Qed.

Lemma nth_error_after_map {A B} (f : A -> B) (l : list A) (rest : list B) (i : nat) :
  nth_error (map f l ++ rest)%list (i + List.length l) = nth_error rest i.
Proof.
  rewrite nth_error_app2 by (rewrite length_map; lia).
  f_equal. rewrite length_map. lia.
Qed.

(** X5.  [_write_report] on a report whose [result] or [path_details] is
    still [None] raises [AttributeError]; by then the report file has
    been opened for writing, which empties a report that was there, and
    no line has been written to it. *)
Theorem write_report_incomplete_report :
  forall (s : State) (r : Report),
    st_report s = Some r ->
    result r = None \/ path_details r = None ->
    exists (what : string) (s' : State),
      _write_report s = (Raised (AttributeError what), s')
      /\ opened_for_writing (report_path (parameters r)) (st_events s') = true
      /\ writes_to (report_path (parameters r)) (st_events s')
         = writes_to (report_path (parameters r)) (st_events s)
      /\ st_report s' = Some r.
Proof.
  intros s r Hrep Hmissing. unfold _write_report, report_path. xrun.
  repeat (rewrite Hrep; xrun).
  assert (Hopen : forall evs q,
             opened_for_writing q (evs ++ [EvOpenWrite q])%list = true).
  { intros evs q. rewrite opened_for_writing_app. cbn. rewrite String.eqb_refl.
    apply orb_true_r. }
  destruct (path_details r) as [d|] eqn:Hd; xrun.
  - destruct Hmissing as [Hres|Hdet]; [|discriminate].
    rewrite Hres. xrun. do 2 eexists. split; [reflexivity|].
    cbn [st_events st_report]. split; [apply Hopen|]. split; [|first [exact Hrep|reflexivity]].
    rewrite !writes_to_app. cbn. rewrite !app_nil_r. reflexivity.
  - do 2 eexists. split; [reflexivity|].
    cbn [st_events st_report]. split; [apply Hopen|]. split; [|first [exact Hrep|reflexivity]].
    rewrite !writes_to_app. cbn. rewrite !app_nil_r. reflexivity.
Qed.

Lemma write_report_incomplete_report_witness :
  exists (what : string) (s' : State),
    _write_report (with_report inspected_case1) = (Raised (AttributeError what), s')
    /\ opened_for_writing (report_path (parameters inspected_case1)) (st_events s') = true
    /\ writes_to (report_path (parameters inspected_case1)) (st_events s')
       = writes_to (report_path (parameters inspected_case1))
                   (st_events (with_report inspected_case1))
    /\ st_report s' = Some inspected_case1.
Proof.
  apply (write_report_incomplete_report (with_report inspected_case1) inspected_case1).
  - reflexivity.
  - left. reflexivity.
Defined.

(** X6.  On a report with path details, [n] output files and a result,
    [_write_report] returns and leaves the report as it is; it writes
    [22 + n] lines to [<destination>/<image_name>/<image_name>.txt], the
    [k]-th output file on line [17 + k] (counting from 0) in the order
    of the list, and the three digests on the last three lines. *)
Theorem write_report_layout :
  forall (s : State) (r : Report) (d : PathDetails) (h : HashedFile),
    st_report s = Some r ->
    path_details r = Some d ->
    result r = Some h ->
    exists (s' : State) (written : list string),
      _write_report s = (Returned tt, s')
      /\ st_report s' = Some r
      /\ self_output_report s' = Some (report_path (parameters r))
      /\ writes_to (report_path (parameters r)) (st_events s')
         = (writes_to (report_path (parameters r)) (st_events s) ++ written)%list
      /\ List.length written = (22 + List.length (output_files r))%nat
      /\ (forall (k : nat) (file : Path),
             nth_error (output_files r) k = Some file ->
             nth_error written (17 + k) = Some ("    - " ++ file ++ PyStr.nl))
      /\ nth_error written (19 + List.length (output_files r))
         = Some ("    - MD5: " ++ md5 h ++ PyStr.nl)
      /\ nth_error written (20 + List.length (output_files r))
         = Some ("    - SHA1: " ++ sha1 h ++ PyStr.nl)
      /\ nth_error written (21 + List.length (output_files r))
         = Some ("    - SHA256: " ++ sha256 h ++ PyStr.nl).
Proof.
  intros s r d h Hrep Hdet Hres. unfold _write_report, report_path. xrun.
  repeat (rewrite Hrep; xrun). rewrite Hdet. xrun. rewrite Hres. xrun.
  rewrite write_lines_run. xrun.
  eexists.
  match goal with
  | |- context [line_writes _ ?lines] =>
      exists (map (fun line => line ++ PyStr.nl) lines)
  end.
  split; [reflexivity|].
  cbn [st_report self_output_report st_events].
  split; [first [exact Hrep|reflexivity]|]. split; [reflexivity|].
  split.
  { rewrite !writes_to_app. rewrite writes_to_line_writes. cbn [writes_to].
    rewrite !app_nil_r. reflexivity. }
  rewrite !map_app, !map_map. cbn [map].
  split.
  { cbn [List.length app]. rewrite length_app, length_map.
    change (List.length (A:=string) [_; _; _; _; _]) with 5%nat. unfold Path. lia. }
  split.
  { intros k file Hk. cbn [app Nat.add nth_error]. unfold Path in *.
    rewrite nth_error_app1 by (rewrite length_map; apply nth_error_Some; rewrite Hk; discriminate).
    rewrite nth_error_map, Hk. reflexivity. }
  cbn [app Nat.add nth_error].
  repeat split.
  - etransitivity; [exact (nth_error_after_map _ _ _ 2)|reflexivity].
  - etransitivity; [exact (nth_error_after_map _ _ _ 3)|reflexivity].
  - etransitivity; [exact (nth_error_after_map _ _ _ 4)|reflexivity].
Qed.


Lemma write_report_layout_witness :
  exists (s' : State) (written : list string),
    _write_report (with_report finished_case1) = (Returned tt, s')
    /\ st_report s' = Some finished_case1
    /\ self_output_report s' = Some (report_path (parameters finished_case1))
    /\ writes_to (report_path (parameters finished_case1)) (st_events s')
       = (writes_to (report_path (parameters finished_case1))
                    (st_events (with_report finished_case1)) ++ written)%list
    /\ List.length written = (22 + List.length (output_files finished_case1))%nat
    /\ (forall (k : nat) (file : Path),
           nth_error (output_files finished_case1) k = Some file ->
           nth_error written (17 + k) = Some ("    - " ++ file ++ PyStr.nl))
    /\ nth_error written (19 + List.length (output_files finished_case1))
       = Some ("    - MD5: " ++ "d41d8cd98f00b204e9800998ecf8427e" ++ PyStr.nl)
    /\ nth_error written (20 + List.length (output_files finished_case1))
       = Some ("    - SHA1: " ++ "da39a3ee5e6b4b0d3255bfef95601890afd80709" ++ PyStr.nl)
    /\ nth_error written (21 + List.length (output_files finished_case1))
       = Some ("    - SHA256: "
               ++ "e3b0c44298fc1c149afbf4c8996fb92427ae41e4649b934ca495991b7852b855"
               ++ PyStr.nl).
Proof.
  apply (write_report_layout (with_report finished_case1) finished_case1
           (mkPathDetails "/" true 1000 "/dev/disk1s1" 16777220 "Device: disk1s1")
           (mkHashedFile "/Volumes/Fuji/FujiAcquisition/FujiAcquisition.dmg"
              "d41d8cd98f00b204e9800998ecf8427e"
              "da39a3ee5e6b4b0d3255bfef95601890afd80709"
              "e3b0c44298fc1c149afbf4c8996fb92427ae41e4649b934ca495991b7852b855"));
    reflexivity.
Defined.

(* ================================================================== *)
(** ** The walk to the mount point ([_find_mount_point])                 *)
(* ================================================================== *)

Lemma upto_last_slash_length (s : string) :
  (String.length (PathLib.upto_last_slash s) <= String.length s)%nat.
Proof.
  induction s as [|c s IH]; cbn [PathLib.upto_last_slash String.length]; [lia|].
  destruct (PathLib.upto_last_slash s) as [|c' r].
  - destruct (Ascii.eqb c "/"); cbn [String.length]; lia.
  - cbn [String.length] in *. lia.
Qed.

Lemma upto_last_slash_full (s : string) :
  String.length (PathLib.upto_last_slash s) = String.length s ->
  PathLib.upto_last_slash s = s.
Proof.
  induction s as [|c s IH]; cbn [PathLib.upto_last_slash String.length]; [reflexivity|].
  pose proof (upto_last_slash_length s) as Hle.
  destruct (PathLib.upto_last_slash s) as [|c' r] eqn:Hu.
  - destruct (Ascii.eqb c "/") eqn:Hc; cbn [String.length]; intros Hlen.
    + destruct s; [|cbn [String.length] in Hlen; lia].
      apply Ascii.eqb_eq in Hc. subst c. reflexivity.
    + lia.
  - cbn [String.length] in *. intros Hlen. f_equal. apply IH. lia.
Qed.

Lemma rstrip_slash_empty (s : string) :
  PathLib.rstrip_slash s = "" -> PathLib.all_slashes s = true.
Proof.
  induction s as [|c s IH]; cbn [PathLib.rstrip_slash PathLib.all_slashes];
    [reflexivity|].
  destruct (PathLib.rstrip_slash s) as [|c' r]; [|discriminate].
  destruct (Ascii.eqb c "/"); [intros _; apply IH; reflexivity|discriminate].
Qed.

Lemma rstrip_slash_length (s : string) :
  (String.length (PathLib.rstrip_slash s) <= String.length s)%nat.
Proof.
  induction s as [|c s IH]; cbn [PathLib.rstrip_slash String.length]; [lia|].
  destruct (PathLib.rstrip_slash s) as [|c' r].
  - destruct (Ascii.eqb c "/"); cbn [String.length]; lia.
  - cbn [String.length] in *. lia.
Qed.

(** What [upto_last_slash] returns ends with a slash, so stripping the
    slashes shortens it. *)
Lemma rstrip_upto_shorter (s : string) :
  PathLib.upto_last_slash s = ""
  \/ (String.length (PathLib.rstrip_slash (PathLib.upto_last_slash s))
      < String.length (PathLib.upto_last_slash s))%nat.
Proof.
  induction s as [|c s IH]; cbn [PathLib.upto_last_slash]; [left; reflexivity|].
  destruct (PathLib.upto_last_slash s) as [|c' r] eqn:Hu.
  - destruct (Ascii.eqb c "/") eqn:Hc; [|left; reflexivity].
    right. cbn [PathLib.rstrip_slash]. rewrite Hc. cbn. lia.
  - right. destruct IH as [IH|IH]; [discriminate|].
    remember (String c' r) as u eqn:Heu.
    cbn [PathLib.rstrip_slash].
    destruct (PathLib.rstrip_slash u) as [|c'' r'] eqn:Hr.
    + destruct (Ascii.eqb c "/"); cbn [String.length] in *; lia.
    + cbn [String.length] in *. lia.
Qed.

Lemma upto_last_slash_absolute (s : string) :
  exists r, PathLib.upto_last_slash (String "/" s) = String "/" r.
Proof.
  cbn [PathLib.upto_last_slash].
  destruct (PathLib.upto_last_slash s) as [|c' r]; cbn; eauto.
Qed.

Lemma rstrip_slash_absolute (r : string) :
  PathLib.all_slashes (String "/" r) = false ->
  exists r', PathLib.rstrip_slash (String "/" r) = String "/" r'.
Proof.
  intros Hall. cbn [PathLib.rstrip_slash].
  destruct (PathLib.rstrip_slash r) as [|c' r'] eqn:Hr; [|eauto].
  apply rstrip_slash_empty in Hr. cbn [PathLib.all_slashes] in Hall.
  rewrite Hr in Hall. discriminate.
Qed.

(** The parent of an absolute path that is not the root is absolute and
    strictly shorter. *)
Lemma dirname_shorter (r : string) :
  PathLib.all_slashes (String "/" r) = false ->
  (exists r', PathLib.dirname (String "/" r) = String "/" r')
  /\ (String.length (PathLib.dirname (String "/" r)) < String.length (String "/" r))%nat.
Proof.
  intros Hall. unfold PathLib.dirname.
  destruct (upto_last_slash_absolute r) as [h Hh].
  pose proof (upto_last_slash_length (String "/" r)) as Hle.
  pose proof (upto_last_slash_full (String "/" r)) as Hfull.
  pose proof (rstrip_upto_shorter (String "/" r)) as Hstrip.
  rewrite Hh in *. cbn [PyStr.truthy andb].
  destruct (PathLib.all_slashes (String "/" h)) eqn:Hhs; cbn [negb].
  - split; [eauto|].
    destruct (Nat.eq_dec (String.length (String "/" h)) (String.length (String "/" r)))
      as [Heq|Hne]; [|lia].
    apply Hfull in Heq. rewrite Heq in Hhs. congruence.
  - split; [apply rstrip_slash_absolute; exact Hhs|].
    destruct Hstrip as [Hs|Hs]; [discriminate|]. lia.
Qed.

(** From an absolute path, in an environment where the root is a mount
    point under each of its spellings, the loop of [_find_mount_point]
    ends within as many steps as the path has characters. *)
Lemma find_mount_loop_terminates :
  forall (w : World),
    (forall q, PathLib.all_slashes (String "/" q) = true ->
               w_ismount w (String "/" q) = true) ->
    forall (fuel : nat) (p : string) (s : State),
      (String.length (String "/" p) < fuel)%nat ->
      exists (mount_point : string) (s' : State),
        find_mount_loop w fuel (String "/" p) s
        = (Returned (String "/" mount_point), s')
        /\ w_ismount w (String "/" mount_point) = true
        /\ (String.length mount_point <= String.length p)%nat
        /\ st_report s' = st_report s
        /\ st_spawned s' = st_spawned s
        /\ spawns_of (st_events s') = spawns_of (st_events s).
Proof.
  intros w Hroot fuel. induction fuel as [|fuel IH]; intros p s Hfuel; [lia|].
  cbn [find_mount_loop]. xrun.
  destruct (w_ismount w (String "/" p)) eqn:Hm.
  - exists p. eexists. split; [reflexivity|]. cbn [st_report st_events st_spawned].
    repeat split; [exact Hm|lia|].
    rewrite spawns_of_app. cbn. apply app_nil_r.
  - assert (Hall : PathLib.all_slashes (String "/" p) = false).
    { destruct (PathLib.all_slashes (String "/" p)) eqn:Ha; [|reflexivity].
      rewrite (Hroot p Ha) in Hm. discriminate. }
    destruct (dirname_shorter p Hall) as [[r' Hd] Hlen].
    rewrite Hd in *. cbn [String.length] in Hlen, Hfuel.
    destruct (IH r' (mkState (st_clock s) (st_spawned s)
                             (st_events s ++ [EvOs "ismount" (String "/" p)])%list
                             (st_report s) (self_temporary_volume s)
                             (self_output_report s)))
      as (mp & s' & Hrun & Hmp & Hlen' & Hrep & Hspn & Hsp);
      [cbn [String.length]; lia|].
    exists mp, s'. rewrite Hrun. cbn [st_report st_events st_spawned] in Hrep, Hsp, Hspn.
    repeat split; [exact Hmp|lia|exact Hrep|exact Hspn|].
    rewrite Hsp, spawns_of_app. cbn. apply app_nil_r.
Qed.

(** X7.  When [os.path.realpath] gives an absolute path and the root is
    a mount point under each of its spellings, [_find_mount_point]
    returns, with fuel above the length of the resolved path, an absolute
    path that is a mount point and is no longer than the resolved path;
    it spawns no command and leaves the report alone. *)
Theorem find_mount_point_terminates :
  forall (w : World),
    (forall q, PathLib.all_slashes (String "/" q) = true ->
               w_ismount w (String "/" q) = true) ->
    forall (fuel : nat) (p : Path) (resolved : string) (s : State),
      w_realpath w p = String "/" resolved ->
      (String.length (String "/" resolved) < fuel)%nat ->
      exists (mount_point : string) (s' : State),
        _find_mount_point w fuel p s = (Returned (String "/" mount_point), s')
        /\ w_ismount w (String "/" mount_point) = true
        /\ (String.length mount_point <= String.length resolved)%nat
        /\ st_report s' = st_report s
        /\ spawns_of (st_events s') = spawns_of (st_events s).
Proof.
  intros w Hroot fuel p resolved s Hreal Hfuel.
  unfold _find_mount_point. xrun. rewrite Hreal.
  destruct (find_mount_loop_terminates w Hroot fuel resolved
              (mkState (st_clock s) (st_spawned s)
                       (st_events s ++ [EvOs "realpath" p])%list
                       (st_report s) (self_temporary_volume s) (self_output_report s))
              Hfuel)
    as (mp & s' & Hrun & Hmp & Hlen & Hrep & _ & Hsp).
  exists mp, s'. rewrite Hrun. cbn [st_report st_events] in Hrep, Hsp.
  repeat split; [exact Hmp|exact Hlen|exact Hrep|].
  rewrite Hsp, spawns_of_app. cbn. apply app_nil_r.
Qed.

Lemma find_mount_point_terminates_witness :
  exists (mount_point : string) (s' : State),
    _find_mount_point two_volumes 30 "/Volumes/Data/case/evidence" initial_State
    = (Returned (String "/" mount_point), s')
    /\ w_ismount two_volumes (String "/" mount_point) = true
    /\ (String.length mount_point <= String.length "Volumes/Data/case/evidence")%nat
    /\ st_report s' = st_report initial_State
    /\ spawns_of (st_events s') = spawns_of (st_events initial_State).
Proof.
  apply (find_mount_point_terminates two_volumes).
  - intros q Hq. cbn [two_volumes w_ismount PyStr.truthy andb]. rewrite Hq. reflexivity.
  - reflexivity.
  - cbn. lia.
Defined.

Example find_mount_point_example :
  fst (_find_mount_point two_volumes 30 "/Volumes/Data/case/evidence" initial_State)
  = Returned "/Volumes/Data".
Proof. vm_compute. reflexivity. Qed.

Lemma find_mount_loop_value (w : World) (fuel : nat) :
  forall (p : string) (s1 s2 : State),
    fst (find_mount_loop w fuel p s1) = fst (find_mount_loop w fuel p s2).
Proof.
  induction fuel as [|fuel IH]; intros p s1 s2; [reflexivity|].
  cbn [find_mount_loop]. xrun.
  destruct (w_ismount w p); [reflexivity|]. apply IH.
Qed.

Lemma find_mount_loop_spawned (w : World) (fuel : nat) :
  forall (p : string) (s : State),
    st_spawned (snd (find_mount_loop w fuel p s)) = st_spawned s.
Proof.
  induction fuel as [|fuel IH]; intros p s; [reflexivity|].
  cbn [find_mount_loop]. xrun.
  destruct (w_ismount w p); [reflexivity|]. rewrite IH. reflexivity.
Qed.

Lemma find_mount_loop_mounted (w : World) (fuel : nat) :
  forall (p mount_point : string) (s : State),
    fst (find_mount_loop w fuel p s) = Returned mount_point ->
    w_ismount w mount_point = true.
Proof.
  induction fuel as [|fuel IH]; intros p mp s H; [discriminate|].
  cbn [find_mount_loop] in H. revert H. xrun.
  destruct (w_ismount w p) eqn:Hm.
  - cbn [fst]. intros H. inversion H; subst. exact Hm.
  - apply IH.
Qed.

(** X8.  For a path that is not itself a mount point, the result of
    [_gather_path_info] has [is_disk=False] and the device and the
    description of the very mount point that [_find_mount_point] returns
    for the path (here with a successful, well-formed query); the sector
    count and the device id are those of the path itself. *)
Theorem gather_path_info_inside_volume :
  forall (w : World) (fuel : nat) (p mount_point : Path) (s : State)
         (info line field : string),
    w_ismount w p = false ->
    0 <= fst (w_statvfs w p) * snd (w_statvfs w p) < 2 ^ 53 ->
    fst (_find_mount_point w fuel p s) = Returned mount_point ->
    0 <= fst (w_statvfs w mount_point) * snd (w_statvfs w mount_point) < 2 ^ 128 ->
    w_proc w (st_spawned s)
           ["caffeinate"; "-dimsu"; "diskutil"; "info"; mount_point] = (0, info) ->
    nth_error (PyStr.splitlines info) 1 = Some line ->
    nth_error (PyStr.split_on ":" line) 1 = Some field ->
    fst (_gather_path_info w (S fuel) p s)
    = Returned (mkPathDetails p false
                  (fst (w_statvfs w p) * snd (w_statvfs w p) / 512)
                  (PyStr.strip field) (w_stat_dev w p) info).
Proof.
  intros w fuel p mp s info line field Hmount Hsize Hfind Hsize' Hproc Hline Hfield.
  destruct (int_truediv_512_total _ Hsize') as [n Hn].
  destruct fuel as [|fuel']; [discriminate|].
  unfold _find_mount_point in Hfind. revert Hfind. xrun. intros Hfind.
  cbn [_gather_path_info]. xrun. rewrite Hmount.
  destruct (w_statvfs w p) as [b fs] eqn:Hvfs. cbn [fst snd] in Hsize |- *. xrun.
  rewrite (int_truediv_512_exact _ Hsize). xrun.
  unfold _find_mount_point. xrun.
  rewrite <- !app_assoc. cbn [app].
  match goal with
  | |- context [find_mount_loop w (S fuel') ?q ?s0] =>
      rewrite (find_mount_loop_value w (S fuel') q _ s0) in Hfind;
      pose proof (find_mount_loop_spawned w (S fuel') q s0) as Hspn;
      pose proof (find_mount_loop_mounted w (S fuel') q mp s0 Hfind) as Hmp;
      destruct (find_mount_loop w (S fuel') q s0) as [o s1]
  end.
  cbn [fst snd st_spawned] in Hfind, Hspn. subst o. xrun.
  cbn [_gather_path_info]. xrun. rewrite Hmp.
  destruct (w_statvfs w mp) as [b' fs'] eqn:Hvfs'. cbn [fst snd] in Hn. xrun.
  rewrite Hn. xrun. rewrite ?Hspn.
  match goal with
  | |- context [w_proc w ?k ?argv] =>
      assert (Heq : w_proc w k argv = (0, info)) by exact Hproc; rewrite Heq
  end.
  xrun. cbn [Z.eqb]. rewrite Hline. xrun. rewrite Hfield. xrun.
  cbn [disk_device disk_info]. reflexivity.
Qed.

Lemma gather_path_info_inside_volume_witness :
  fst (_gather_path_info two_volumes 31 "/Volumes/Data/case/evidence" initial_State)
  = Returned (mkPathDetails "/Volumes/Data/case/evidence" false (16 * 512 / 512)
                            (PyStr.strip "   /dev/disk7s1") 16777231
                            ("   Device Identifier:   disk7s1" ++ PyStr.nl
                             ++ "   Device Node:   /dev/disk7s1" ++ PyStr.nl)).
Proof.
  apply (gather_path_info_inside_volume two_volumes 30 "/Volumes/Data/case/evidence"
           "/Volumes/Data" initial_State
           ("   Device Identifier:   disk7s1" ++ PyStr.nl
            ++ "   Device Node:   /dev/disk7s1" ++ PyStr.nl)
           "   Device Node:   /dev/disk7s1" "   /dev/disk7s1").
  - reflexivity.
  - vm_compute. split; [discriminate|reflexivity].
  - vm_compute. reflexivity.
  - vm_compute. split; [discriminate|reflexivity].
  - reflexivity.
  - reflexivity.
  - reflexivity.
Defined.

Example gather_path_info_inside_volume_example :
  fst (_gather_path_info two_volumes 31 "/Volumes/Data/case/evidence" initial_State)
  = Returned (mkPathDetails "/Volumes/Data/case/evidence" false 16 "/dev/disk7s1" 16777231
                ("   Device Identifier:   disk7s1" ++ PyStr.nl
                 ++ "   Device Node:   /dev/disk7s1" ++ PyStr.nl)).
Proof. vm_compute. reflexivity. Qed.
